(** * The GoDaddy provider for libdns: record codec, name resolver, TTL policy
      and delete reconciliation.

    The Go package [godaddy] is embedded function by function.  Go strings are
    byte sequences: they are [string] (a list of 8-bit [ascii]).  Go's [int]
    and [time.Duration] are 64-bit two's-complement integers (the usual
    amd64/arm64 targets): they are [Z], and the one multiplication of the
    package that can leave the 64-bit range has its wrap-around written out.
    The functions of the Go standard library and of libdns that the package
    calls are embedded in modules named after their Go packages. *)

From Stdlib Require Import ZArith String Ascii List Lia Bool.
Import ListNotations.
Open Scope string_scope.

(* ================================================================== *)
(** ** Package [strings] *)
(* ================================================================== *)

Module strings.

(** [s[:n]] *)
Fixpoint take (n : nat) (s : string) : string :=
  match n, s with
  | S n', String c s' => String c (take n' s')
  | _, _ => ""
  end.

(** [s[n:]] *)
Fixpoint drop (n : nat) (s : string) : string :=
  match n, s with
  | S n', String _ s' => drop n' s'
  | _, _ => s
  end.

(** [func HasSuffix(s, suffix string) bool {
       return len(s) >= len(suffix) && s[len(s)-len(suffix):] == suffix }] *)
Definition HasSuffix (s suffix : string) : bool :=
  (String.length suffix <=? String.length s)%nat &&
  (drop (String.length s - String.length suffix) s =? suffix).

(** [func TrimSuffix(s, suffix string) string {
       if HasSuffix(s, suffix) { return s[:len(s)-len(suffix)] }
       return s }] *)
Definition TrimSuffix (s suffix : string) : string :=
  if HasSuffix s suffix
  then take (String.length s - String.length suffix) s
  else s.

(** [Index(s, substr)]: the byte offset of the first occurrence of [substr]
    in [s]; Go's [-1] is [None]. *)
Fixpoint Index (s substr : string) : option nat :=
  if prefix substr s then Some O
  else match s with
       | "" => None
       | String _ s' => option_map S (Index s' substr)
       end.

(** The loop of [genSplit]: [for i < n { m := Index(s, sep); if m < 0 { break };
    a[i] = s[:m]; s = s[m+len(sep):]; i++ }; a[i] = s].  [k] is [n - i]. *)
Fixpoint genSplit (k : nat) (s sep : string) : list string :=
  match k with
  | O => [s]
  | S k' =>
      match Index s sep with
      | None => [s]
      | Some m => take m s :: genSplit k' (drop (m + String.length sep) s) sep
      end
  end.

(** [SplitN(s, sep, n)] for a non-empty separator and [n >= 0], which is how
    the provider calls it ([SplitN(data, " ", 2)]).  [n == 0] gives no slice;
    otherwise [n] is capped at [len(s)+1] and at most [n-1] cuts are made. *)
Definition SplitN (s sep : string) (n : nat) : list string :=
  match n with
  | O => []
  | S _ => genSplit (Nat.min n (String.length s + 1) - 1) s sep
  end.

Definition isLower (c : ascii) : bool :=
  ((97 <=? nat_of_ascii c) && (nat_of_ascii c <=? 122))%nat.

(** [c -= 'a' - 'A'] on a lower-case ASCII letter, other bytes unchanged. *)
Definition upperByte (c : ascii) : ascii :=
  if isLower c then ascii_of_nat (nat_of_ascii c - 32) else c.

Fixpoint mapBytes (f : ascii -> ascii) (s : string) : string :=
  match s with
  | "" => ""
  | String c s' => String (f c) (mapBytes f s')
  end.

Fixpoint allBytes (p : ascii -> bool) (s : string) : bool :=
  match s with
  | "" => true
  | String c s' => p c && allBytes p s'
  end.

(** Every byte is below [utf8.RuneSelf] (0x80). *)
Definition isASCII (s : string) : bool :=
  allBytes (fun c => (nat_of_ascii c <? 128)%nat) s.

Section ToUpper.
(** [strings.Map(unicode.ToUpper, s)], the path [ToUpper] takes on a string
    holding a byte >= 0x80.  It depends on the Unicode case tables, which
    stay a parameter. *)
Variable mapUnicodeToUpper : string -> string.

(** [func ToUpper(s string) string]: ASCII-only strings are upper-cased
    byte by byte (and returned as they are when they hold no lower-case
    letter); any other string goes through the Unicode tables. *)
Definition ToUpper (s : string) : string :=
  if isASCII s
  then if allBytes (fun c => negb (isLower c)) s then s else mapBytes upperByte s
  else mapUnicodeToUpper s.
End ToUpper.

End strings.

(* ================================================================== *)
(** ** Package [strconv] *)
(* ================================================================== *)

Module strconv.

(** The value of a digit byte in [ParseUint]: ['0'..'9'] are 0..9 and a
    letter, lower-cased by [c | ('x' - 'X')], is 10..35. *)
Definition digitVal (c : ascii) : option Z :=
  let n := Z.of_nat (nat_of_ascii c) in
  if ((48 <=? n) && (n <=? 57))%Z then Some (n - 48)%Z
  else
    let l := Z.lor n 32 in
    if ((97 <=? l) && (l <=? 122))%Z then Some (l - 97 + 10)%Z else None.

(** The digit loop of [ParseUint]; [None] is a syntax or a range error.
    [n] is a uint64: [n*base] cannot wrap once [n < cutoff], and [n1 < n]
    is the test for [n + d] wrapping. *)
Fixpoint parseLoop (cs : string) (base maxVal cutoff n : Z) : option Z :=
  match cs with
  | "" => Some n
  | String c cs' =>
      match digitVal c with
      | None => None
      | Some d =>
          if (base <=? d)%Z then None
          else if (cutoff <=? n)%Z then None
          else
            let n1 := (n * base + d)%Z in
            if ((2 ^ 64 <=? n1) || (maxVal <? n1))%Z then None
            else parseLoop cs' base maxVal cutoff n1
      end
  end.

(** [ParseUint(s, base, bitSize)] for an explicit base [2 <= base <= 36]
    and [0 <= bitSize <= 64] (the provider calls it with 10 and 16).  The
    error result is [None]. *)
Definition ParseUint (s : string) (base bitSize : Z) : option Z :=
  if s =? "" then None
  else if ((base <? 2) || (36 <? base) || (bitSize <? 0) || (64 <? bitSize))%Z then None
  else
    let bitSize := if (bitSize =? 0)%Z then 64%Z else bitSize in
    let cutoff := ((2 ^ 64 - 1) / base + 1)%Z in
    let maxVal := (2 ^ bitSize - 1)%Z in
    parseLoop s base maxVal cutoff 0.

End strconv.

(* ================================================================== *)
(** ** Package [time] *)
(* ================================================================== *)

Module time.

(** [type Duration int64]: a count of nanoseconds. *)
Definition Duration : Type := Z.

Definition Second : Duration := 1000000000%Z.
Definition Minute : Duration := (60 * Second)%Z.
Definition Hour : Duration := (60 * Minute)%Z.

End time.

(** A 64-bit two's-complement integer keeps the low 64 bits of a result. *)
Definition wrap64 (z : Z) : Z := ((z + 2 ^ 63) mod 2 ^ 64 - 2 ^ 63)%Z.

(* ================================================================== *)
(** ** Package [net/netip] *)
(* ================================================================== *)

Module netip.

(** A valid [Addr]: an IPv4 address of four bytes, or an IPv6 address of
    sixteen bytes with its zone (the empty zone is [z6noz]).  An IPv4-mapped
    IPv6 address is an IPv6 address. *)
Inductive Addr : Type :=
| Addr4 (a b c d : Z)
| Addr6 (ip : list Z) (zone : string).

Definition Is4 (ip : Addr) : bool :=
  match ip with Addr4 _ _ _ _ => true | Addr6 _ _ => false end.

Definition Is6 (ip : Addr) : bool :=
  match ip with Addr4 _ _ _ _ => false | Addr6 _ _ => true end.

Definition byteVal (c : ascii) : Z := Z.of_nat (nat_of_ascii c).

Definition isDigit (c : ascii) : bool :=
  ((48 <=? byteVal c) && (byteVal c <=? 57))%Z.

Definition isByte (c : ascii) (code : Z) : bool := (byteVal c =? code)%Z.

(** The loop of [parseIPv4Fields] over [s]: [first] is [i == 0], [prevDot]
    is [s[i-1] == '.'], and [i == len(s)-1] is the rest being empty.
    [fields] holds the [pos] octets stored so far. *)
Fixpoint parseIPv4Loop (s : string) (first prevDot : bool)
    (val : Z) (pos digLen : nat) (fields : list Z) : option (list Z) :=
  match s with
  | "" => if (pos <? 3)%nat then None else Some (fields ++ [val])%list
  | String c rest =>
      if isDigit c then
        if ((digLen =? 1)%nat && (val =? 0)%Z) then None
        else
          let val' := (val * 10 + (byteVal c - 48))%Z in
          if (255 <? val')%Z then None
          else parseIPv4Loop rest false false val' pos (S digLen) fields
      else if isByte c 46 then
        if first || (rest =? "") || prevDot then None
        else if (pos =? 3)%nat then None
        else parseIPv4Loop rest false true 0%Z (S pos) 0 (fields ++ [val])%list
      else None
  end.

Definition parseIPv4Fields (s : string) : option (list Z) :=
  parseIPv4Loop s true false 0%Z 0 0 [].

Definition parseIPv4 (s : string) : option Addr :=
  match parseIPv4Fields s with
  | Some [a; b; c; d] => Some (Addr4 a b c d)
  | _ => None
  end.

Definition hexVal (c : ascii) : option Z :=
  let n := byteVal c in
  if ((48 <=? n) && (n <=? 57))%Z then Some (n - 48)%Z
  else if ((97 <=? n) && (n <=? 102))%Z then Some (n - 97 + 10)%Z
  else if ((65 <=? n) && (n <=? 70))%Z then Some (n - 65 + 10)%Z
  else None.

(** The hex-number scan of [parseIPv6]: [Some (off, acc)] when it stops at
    a byte that is no hex digit or at the end, [None] on more than four
    digits or a value above 0xffff. *)
Fixpoint scanHex (s : string) (off : nat) (acc : Z) : option (nat * Z) :=
  match s with
  | "" => Some (off, acc)
  | String c rest =>
      match hexVal c with
      | None => Some (off, acc)
      | Some d =>
          let acc' := (acc * 16 + d)%Z in
          if (3 <? off)%nat then None
          else if (65535 <? acc')%Z then None
          else scanHex rest (S off) acc'
      end
  end.

(** The group loop of [parseIPv6] ([for i < 16]).  The array [ip] is written
    from left to right, so the state keeps the bytes written so far: [i] is
    [length ip].  The result is the rest of the string, the bytes written and
    the position of the ellipsis.  Each round writes at least two bytes:
    eight rounds are enough. *)
Fixpoint parseIPv6Loop (fuel : nat) (s : string) (ip : list Z)
    (ellipsis : option nat) : option (string * list Z * option nat) :=
  match fuel with
  | O => Some (s, ip, ellipsis)
  | S fuel' =>
      if (16 <=? List.length ip)%nat then Some (s, ip, ellipsis)
      else
        match scanHex s 0 0%Z with
        | None => None
        | Some (off, acc) =>
            if (off =? 0)%nat then None
            else
              match strings.drop off s with
              | String c _ =>
                  if isByte c 46 then
                    (* a trailing embedded IPv4 address *)
                    if (match ellipsis with None => true | Some _ => false end)
                       && negb (List.length ip =? 12)%nat then None
                    else if (16 <? List.length ip + 4)%nat then None
                    else
                      match parseIPv4Fields s with
                      | None => None
                      | Some fields => Some ("", (ip ++ fields)%list, ellipsis)
                      end
                  else
                    let ip' := (ip ++ [Z.shiftr acc 8; Z.land acc 255])%list in
                    if negb (isByte c 58) then None
                    else
                      match strings.drop (S off) s with
                      | "" => None
                      | String c2 rest2 =>
                          if isByte c2 58 then
                            match ellipsis with
                            | Some _ => None
                            | None =>
                                if rest2 =? ""
                                then Some ("", ip', Some (List.length ip'))
                                else parseIPv6Loop fuel' rest2 ip' (Some (List.length ip'))
                            end
                          else parseIPv6Loop fuel' (String c2 rest2) ip' ellipsis
                      end
              | "" =>
                  Some ("", (ip ++ [Z.shiftr acc 8; Z.land acc 255])%list, ellipsis)
              end
        end
  end.

Definition indexByte (s : string) (code : Z) : option nat :=
  strings.Index s (String (ascii_of_nat (Z.to_nat code)) "").

Definition parseIPv6 (input : string) : option Addr :=
  let split :=
    match indexByte input 37 with
    | None => Some (input, "")
    | Some i =>
        let zone := strings.drop (S i) input in
        if zone =? "" then None else Some (strings.take i input, zone)
    end in
  match split with
  | None => None
  | Some (s, zone) =>
      let lead :=
        match s with
        | String c1 (String c2 rest) =>
            if isByte c1 58 && isByte c2 58 then Some rest else None
        | _ => None
        end in
      match lead with
      | Some "" => Some (Addr6 (repeat 0%Z 16) zone)
      | _ =>
          let s0 := match lead with Some rest => rest | None => s end in
          let e0 := match lead with Some _ => Some O | None => None end in
          match parseIPv6Loop 8 s0 [] e0 with
          | None => None
          | Some (rest, ip, ellipsis) =>
              if negb (rest =? "") then None
              else if (List.length ip <? 16)%nat then
                match ellipsis with
                | None => None
                | Some e =>
                    Some (Addr6 (firstn e ip ++ repeat 0%Z (16 - List.length ip)
                                 ++ skipn e ip)%list zone)
                end
              else
                match ellipsis with
                | Some _ => None
                | None => Some (Addr6 ip zone)
                end
          end
      end
  end.

(** [func ParseAddr(s string) (Addr, error)]: the first of ['.'], [':'] and
    ['%'] in [s] picks the parser; the error result is [None]. *)
Fixpoint ParseAddrScan (s whole : string) : option Addr :=
  match s with
  | "" => None
  | String c rest =>
      if isByte c 46 then parseIPv4 whole
      else if isByte c 58 then parseIPv6 whole
      else if isByte c 37 then None
      else ParseAddrScan rest whole
  end.

Definition ParseAddr (s : string) : option Addr := ParseAddrScan s s.

Definition digit (d : Z) : string :=
  String (ascii_of_nat (Z.to_nat (if (d <? 10)%Z then 48 + d else 87 + d)%Z)) "".

(** [appendDecimal(b, x uint8)] *)
Definition appendDecimal (x : Z) : string :=
  (if (100 <=? x)%Z then digit (x / 100) else "")
  ++ (if (10 <=? x)%Z then digit (x / 10 mod 10) else "")
  ++ digit (x mod 10).

(** [appendHex(b, x uint16)] *)
Definition appendHex (x : Z) : string :=
  (if (4096 <=? x)%Z then digit (Z.shiftr x 12) else "")
  ++ (if (256 <=? x)%Z then digit (Z.land (Z.shiftr x 8) 15) else "")
  ++ (if (16 <=? x)%Z then digit (Z.land (Z.shiftr x 4) 15) else "")
  ++ digit (Z.land x 15).

Definition string4 (a b c d : Z) : string :=
  appendDecimal a ++ "." ++ appendDecimal b ++ "." ++ appendDecimal c
  ++ "." ++ appendDecimal d.

(** [ip.v6u16(i)] *)
Definition v6u16 (ip : list Z) (i : nat) : Z :=
  (nth (2 * i) ip 0 * 256 + nth (2 * i + 1) ip 0)%Z.

(** The inner loop [for j < 8 && ip.v6u16(j) == 0 { j++ }] from [j]. *)
Fixpoint zeroRunEnd (fuel : nat) (ip : list Z) (j : nat) : nat :=
  match fuel with
  | O => j
  | S fuel' =>
      if ((j <? 8)%nat && (v6u16 ip j =? 0)%Z) then zeroRunEnd fuel' ip (S j) else j
  end.

(** The first loop of [appendTo6]: the longest run of at least two zero
    groups, the leftmost one on a tie.  [(255, 255)] is no run. *)
Definition longestZeroRun (ip : list Z) : nat * nat :=
  fold_left
    (fun '(zeroStart, zeroEnd) i =>
       let j := zeroRunEnd 8 ip i in
       let l := (j - i)%nat in
       if ((2 <=? l) && (zeroEnd - zeroStart <? l))%nat then (i, j)
       else (zeroStart, zeroEnd))
    (seq 0 8) (255, 255)%nat.

(** The second loop of [appendTo6], from group [i]. *)
Fixpoint appendGroups (fuel : nat) (ip : list Z) (zeroStart zeroEnd i : nat) : string :=
  match fuel with
  | O => ""
  | S fuel' =>
      if (8 <=? i)%nat then ""
      else if (i =? zeroStart)%nat then
        "::" ++ (if (8 <=? zeroEnd)%nat then ""
                 else appendHex (v6u16 ip zeroEnd)
                      ++ appendGroups fuel' ip zeroStart zeroEnd (S zeroEnd))
      else
        (if (0 <? i)%nat then ":" else "")
        ++ appendHex (v6u16 ip i) ++ appendGroups fuel' ip zeroStart zeroEnd (S i)
  end.

Definition withZone (s zone : string) : string :=
  if zone =? "" then s else s ++ "%" ++ zone.

(** [ip.Is4In6()]: the IPv4-mapped prefix [::ffff:0:0/96]. *)
Definition Is4In6 (ip : list Z) : bool :=
  forallb (fun b => (b =? 0)%Z) (firstn 10 ip)
  && (nth 10 ip 0 =? 255)%Z && (nth 11 ip 0 =? 255)%Z.

(** [func (ip Addr) String() string] *)
Definition String_ (ip : Addr) : string :=
  match ip with
  | Addr4 a b c d => string4 a b c d
  | Addr6 bytes zone =>
      if Is4In6 bytes then
        withZone ("::ffff:" ++ string4 (nth 12 bytes 0) (nth 13 bytes 0)
                                       (nth 14 bytes 0) (nth 15 bytes 0))%Z zone
      else
        let '(zeroStart, zeroEnd) := longestZeroRun bytes in
        withZone (appendGroups 8 bytes zeroStart zeroEnd 0) zone
  end.

End netip.

(* ================================================================== *)
(** ** Package [fmt]: the verb [%d] *)
(* ================================================================== *)

Module fmt.

(** The decimal digits of a natural number, most significant first, put in
    front of [acc]; [fuel] bounds the number of digits. *)
Fixpoint digits (fuel : nat) (n : Z) (acc : string) : string :=
  match fuel with
  | O => acc
  | S fuel' =>
      let acc' := String (ascii_of_nat (Z.to_nat (48 + n mod 10))) acc in
      if (n <? 10)%Z then acc' else digits fuel' (n / 10)%Z acc'
  end.

(** [Sprintf("%d", n)] *)
Definition d (n : Z) : string :=
  if (n <? 0)%Z then "-" ++ digits (S (Z.to_nat (Z.log2 (- n)))) (- n)%Z ""
  else digits (S (Z.to_nat (Z.log2 n))) n "".

End fmt.

(* ================================================================== *)
(** ** Package [libdns] *)
(* ================================================================== *)

Module libdns.

(** [type RR struct { Name string; TTL time.Duration; Type string; Data string }] *)
Record RR : Type := mkRR {
  Name : string;
  TTL : time.Duration;
  Type_ : string;
  Data : string
}.

(** The record types of libdns that the provider builds.  [interface Record
    { RR() RR }] is their sum; [Raw] is a [libdns.RR] value used as a
    [Record].  The provider reads a record through [RR()] only, so any other
    implementation of the interface behaves as the [Raw] of its view. *)
Inductive Record_ : Type :=
| Address (Name : string) (TTL : time.Duration) (IP : netip.Addr)
| TXT (Name : string) (TTL : time.Duration) (Text : string)
| CNAME (Name : string) (TTL : time.Duration) (Target : string)
| MX (Name : string) (TTL : time.Duration) (Preference : Z) (Target : string)
| NS (Name : string) (TTL : time.Duration) (Target : string)
| Raw (rr : RR).

(** The method [RR()] of each record type: [Address] is ["A"], or ["AAAA"]
    when [IP.Is6()], with [IP.String()] as data; [MX] prints
    [Sprintf("%d %s", Preference, Target)]; [RR.RR()] is the value itself. *)
Definition toRR (r : Record_) : RR :=
  match r with
  | Address name ttl ip =>
      mkRR name ttl (if netip.Is6 ip then "AAAA" else "A") (netip.String_ ip)
  | TXT name ttl text => mkRR name ttl "TXT" text
  | CNAME name ttl target => mkRR name ttl "CNAME" target
  | MX name ttl preference target =>
      mkRR name ttl "MX" (fmt.d preference ++ " " ++ target)
  | NS name ttl target => mkRR name ttl "NS" target
  | Raw rr => rr
  end.

End libdns.

(* ================================================================== *)
(** ** Package [godaddy]: name resolver and record codec *)
(* ================================================================== *)

(** [func getDomain(zone string) string] *)
Definition getDomain (zone : string) : string :=
  strings.TrimSuffix zone ".".

(** [func getRecordName(zone, name string) string] *)
Definition getRecordName (zone name : string) : string :=
  if name =? "@" then "@"
  else strings.TrimSuffix (strings.TrimSuffix name zone) ".".

(** [type godaddyRecord struct { Type, Name, Data string; TTL int }] *)
Record godaddyRecord : Type := mkRecord {
  Type_ : string;
  Name : string;
  Data : string;
  TTL : Z
}.

(** [time.Duration(n) * time.Second]: a product of two [int64]. *)
Definition secondsToDuration (n : Z) : time.Duration :=
  wrap64 (n * time.Second).

(** Go errors, one constructor per [fmt.Errorf] of the package. *)
Inductive error : Type :=
| errCreateRequest (cause : string)
| errExecuteRequest (cause : string)
| errReadBody (cause : string)
| errAPIStatus (status : Z) (body : string)
| errParseJSON
| errGetCurrent (cause : error)
| errAppendStatus (name domain : string) (status : Z) (body : string)
| errCreateDeleteRequest (cause : string)
| errExecuteDeleteRequest (cause : string)
| errDeleteStatus (name domain : string) (status : Z) (body : string).

Section Codec.

(** The Unicode path of [strings.ToUpper]. *)
Variable mapUnicodeToUpper : string -> string.

(** [func convertToLibdnsRecord(gr godaddyRecord) libdns.Record] *)
Definition convertToLibdnsRecord (gr : godaddyRecord) : libdns.Record_ :=
  let ttl := secondsToDuration (TTL gr) in
  let type := strings.ToUpper mapUnicodeToUpper (Type_ gr) in
  if (type =? "A") || (type =? "AAAA") then
    match netip.ParseAddr (Data gr) with
    | None => libdns.Raw (libdns.mkRR (Name gr) ttl (Type_ gr) (Data gr))
    | Some ip => libdns.Address (Name gr) ttl ip
    end
  else if type =? "TXT" then libdns.TXT (Name gr) ttl (Data gr)
  else if type =? "CNAME" then libdns.CNAME (Name gr) ttl (Data gr)
  else if type =? "MX" then
    let parts := strings.SplitN (Data gr) " " 2 in
    if (List.length parts =? 2)%nat then
      match strconv.ParseUint (nth 0 parts "") 10 16 with
      | Some pref =>
          libdns.MX (Name gr) ttl (pref mod 2 ^ 16)%Z (nth 1 parts "")
      | None => libdns.Raw (libdns.mkRR (Name gr) ttl (Type_ gr) (Data gr))
      end
    else libdns.Raw (libdns.mkRR (Name gr) ttl (Type_ gr) (Data gr))
  else if type =? "NS" then libdns.NS (Name gr) ttl (Data gr)
  else
    (* case "SRV": fallthrough; default: *)
    libdns.Raw (libdns.mkRR (Name gr) ttl (Type_ gr) (Data gr)).

End Codec.

(** [func convertFromLibdnsRecord(record libdns.Record, zone string)
    (godaddyRecord, error)].  [rr.TTL / time.Second] truncates toward zero
    and [int] of an [int64] is the value itself; the error is always [nil]. *)
Definition convertFromLibdnsRecord (record : libdns.Record_) (zone : string)
    : godaddyRecord * option error :=
  let rr := libdns.toRR record in
  let ttlSeconds := Z.quot (libdns.TTL rr) time.Second in
  let ttlSeconds := if (ttlSeconds <? 600)%Z then 600%Z else ttlSeconds in
  (mkRecord (libdns.Type_ rr) (getRecordName zone (libdns.Name rr))
            (libdns.Data rr) ttlSeconds,
   None).

(** [decode], then [encode] into [zone], then [decode] again. *)
Definition decodeEncodeDecode (mapUnicodeToUpper : string -> string)
    (zone : string) (gr : godaddyRecord) : libdns.Record_ :=
  convertToLibdnsRecord mapUnicodeToUpper
    (fst (convertFromLibdnsRecord (convertToLibdnsRecord mapUnicodeToUpper gr) zone)).

(** A record with the type tag of a [Raw] replaced, any other record as it is. *)
Definition withRawType (t : string) (r : libdns.Record_) : libdns.Record_ :=
  match r with
  | libdns.Raw rr => libdns.Raw (libdns.mkRR (libdns.Name rr) (libdns.TTL rr) t (libdns.Data rr))
  | _ => r
  end.

(** An instance of the Unicode path for the examples below, which are all
    ASCII: [strings.ToUpper] does not reach it on an ASCII string. *)
Definition noUnicode (s : string) : string := s.

(* ------------------------------------------------------------------ *)
(** *** The MX rule as the specification words it *)

(** White space as [unicode.IsSpace] has it below 0x80: tab, line feed,
    vertical tab, form feed, carriage return and space. *)
Definition isSpace (c : ascii) : bool :=
  let n := nat_of_ascii c in ((9 <=? n) && (n <=? 13) || (n =? 32))%nat.

Fixpoint skipSpaces (s : string) : string :=
  match s with
  | String c rest => if isSpace c then skipSpaces rest else s
  | "" => ""
  end.

(** "Split on the first whitespace run": the text before the run and the
    text after it, or the text alone when it holds no white space. *)
Fixpoint splitFirstWhitespaceRun (s : string) : list string :=
  match s with
  | "" => [""]
  | String c rest =>
      if isSpace c then [""; skipSpaces rest]
      else match splitFirstWhitespaceRun rest with
           | h :: t => String c h :: t
           | [] => []
           end
  end.

(** "If exactly two tokens result and the first parses as an unsigned 16-bit
    integer, produce a MailExchange variant with that preference and the
    second token as target [...] fall back to Raw". *)
Definition decodeMX_spec (gr : godaddyRecord) : libdns.Record_ :=
  match splitFirstWhitespaceRun (Data gr) with
  | [a; b] =>
      match strconv.ParseUint a 10 16 with
      | Some p => libdns.MX (Name gr) (secondsToDuration (TTL gr)) p b
      | None => libdns.Raw (libdns.mkRR (Name gr) (secondsToDuration (TTL gr)) (Type_ gr) (Data gr))
      end
  | _ => libdns.Raw (libdns.mkRR (Name gr) (secondsToDuration (TTL gr)) (Type_ gr) (Data gr))
  end.

(* ------------------------------------------------------------------ *)
(** *** Vocabulary of the statements *)

(** A string ends with a suffix. *)
Definition endsWith (s suffix : string) : Prop := exists p, s = p ++ suffix.

(** A byte occurs in a string. *)
Definition hasByte (c : ascii) (s : string) : Prop := In c (list_ascii_of_string s).

(** The seconds that [time.Duration(n) * time.Second] holds without
    leaving the 64-bit range. *)
Definition fitsDuration (n : Z) : Prop := (- 9223372036 <= n <= 9223372036)%Z.

(** The number that a string of decimal digits writes, after the digits [n]. *)
Fixpoint decimalValue (s : string) (n : Z) : Z :=
  match s with
  | "" => n
  | String c rest => decimalValue rest (n * 10 + (netip.byteVal c - 48))%Z
  end.

(** The untyped fallback of a vendor record: a [libdns.RR] with the record's
    own type, name and data. *)
Definition rawFallback (gr : godaddyRecord) : libdns.Record_ :=
  libdns.Raw (libdns.mkRR (Name gr) (secondsToDuration (TTL gr)) (Type_ gr) (Data gr)).

(** A malformed MX payload: no space to cut at, or a text before the first
    space that is no unsigned 16-bit decimal. *)
Definition malformedMX (data : string) : Prop :=
  ~ hasByte " " data
  \/ exists a b, data = a ++ " " ++ b /\ ~ hasByte " " a
                 /\ strconv.ParseUint a 10 16 = None.

(** The data of a vendor record does not parse into the typed variant of
    its declared type: an invalid IP literal under A or AAAA, a malformed MX
    payload, or a type the decoder has no typed variant for. *)
Definition undecodable (mapUnicodeToUpper : string -> string) (gr : godaddyRecord) : Prop :=
  let type := strings.ToUpper mapUnicodeToUpper (Type_ gr) in
  ((type = "A" \/ type = "AAAA") /\ netip.ParseAddr (Data gr) = None)
  \/ (type = "MX" /\ malformedMX (Data gr))
  \/ ~ In type ["A"; "AAAA"; "TXT"; "CNAME"; "MX"; "NS"].

(* ================================================================== *)
(** ** Package [godaddy]: the provider and its remote calls *)
(* ================================================================== *)

(** [type Provider struct { APIToken string; UseOTE bool; HTTPTimeout time.Duration }] *)
Record Provider : Type := mkProvider {
  APIToken : string;
  UseOTE : bool;
  HTTPTimeout : time.Duration
}.

(** [func (p *Provider) getApiHost() string] *)
Definition getApiHost (p : Provider) : string :=
  if UseOTE p then "https://api.ote-godaddy.com" else "https://api.godaddy.com".

(** [http.Client], of which the provider sets the timeout only. *)
Record Client : Type := mkClient { Timeout : time.Duration }.

(** [func (p *Provider) getHTTPClient() *http.Client] *)
Definition getHTTPClient (p : Provider) : Client :=
  let timeout := HTTPTimeout p in
  let timeout := if (timeout =? 0)%Z then (30 * time.Second)%Z else timeout in
  mkClient timeout.

(** [http.Response] as the provider reads it: the status code, the bytes
    that [io.ReadAll] returns and the error it returns with them. *)
Record Response : Type := mkResponse {
  StatusCode : Z;
  Body : string;
  ReadErr : option string
}.

(** [http.Header.Set]: the entry of the key is replaced. *)
Definition Header_Set (key value : string) (h : list (string * string))
    : list (string * string) :=
  (filter (fun kv => negb (fst kv =? key)) h ++ [(key, value)])%list.

Section Remote.

(** The Unicode path of [strings.ToUpper]. *)
Variable mapUnicodeToUpper : string -> string.

(** [context.Context]. *)
Variable Context : Type.

(** [http.Request]: the method, the URL, the header, and the body bytes
    ([None] for a [nil] body) with the context of the call. *)
Record Request : Type := mkRequest {
  Ctx : Context;
  Method : string;
  URL : string;
  Header : list (string * string);
  ReqBody : option string
}.

(** The state of the vendor's side, and what one [client.Do] does to it:
    the call changes the state and gives a transport error (with its
    text) or a response.  A cancelled context is a transport error. *)
Variable World : Type.
Variable Do : Client -> Request -> World -> (string + Response) * World.

(** The error of [http.NewRequestWithContext(ctx, method, url, body)],
    [None] when the request is built. *)
Variable NewRequestWithContext_err : Context -> string -> string -> option string.

(** [json.Marshal] on a [[]godaddyRecord], which has no failing case, and
    [json.Unmarshal] of the body bytes into a [[]godaddyRecord]. *)
Variable json_Marshal : list godaddyRecord -> string.
Variable json_Unmarshal : string -> option (list godaddyRecord).

(** The vendor's state together with the requests sent so far, oldest
    first.  The list of requests is a record of the run that the Go code
    does not keep: it is there to state which calls were made. *)
Record Net : Type := mkNet { world : World; sent : list Request }.

(** A computation that makes remote calls and stops at the first error. *)
Definition M (A : Type) : Type := Net -> (error + A) * Net.

Definition ret {A : Type} (a : A) : M A := fun s => (inr a, s).

Definition fail {A : Type} (e : error) : M A := fun s => (inl e, s).

Definition bind {A B : Type} (m : M A) (k : A -> M B) : M B :=
  fun s => match m s with
           | (inl e, s') => (inl e, s')
           | (inr a, s') => k a s'
           end.

Notation "x <- m ;; k" := (bind m (fun x => k))
  (at level 61, m at next level, right associativity).

(** [req, err := http.NewRequestWithContext(ctx, method, url, body);
    if err != nil { return nil, wrap(err) }] *)
Definition newRequest (ctx : Context) (method url : string)
    (body : option string) (wrap : string -> error) : M Request :=
  match NewRequestWithContext_err ctx method url with
  | Some cause => fail (wrap cause)
  | None => ret (mkRequest ctx method url [] body)
  end.

(** [resp, err := client.Do(req); if err != nil { return nil, wrap(err) }] *)
Definition doRequest (client : Client) (req : Request)
    (wrap : string -> error) : M Response :=
  fun s =>
    let '(outcome, w) := Do client req (world s) in
    let s' := mkNet w (sent s ++ [req])%list in
    match outcome with
    | inl cause => (inl (wrap cause), s')
    | inr resp => (inr resp, s')
    end.

(** [func (p *Provider) setCommonHeaders(req *http.Request)] *)
Definition setCommonHeaders (p : Provider) (req : Request) : Request :=
  mkRequest (Ctx req) (Method req) (URL req)
    (Header_Set "User-Agent" "libdns-godaddy/1.0"
       (Header_Set "Accept" "application/json"
          (Header_Set "Authorization" ("sso-key " ++ APIToken p) (Header req))))
    (ReqBody req).

Definition setHeader (key value : string) (req : Request) : Request :=
  mkRequest (Ctx req) (Method req) (URL req)
    (Header_Set key value (Header req)) (ReqBody req).

(** Go's result pair: [nil, err] on an error, the records and [nil]
    otherwise. *)
Definition results {A : Type} (r : (error + list A) * Net)
    : (list A * option error) * Net :=
  match r with
  | (inl e, s) => (([], Some e), s)
  | (inr l, s) => ((l, None), s)
  end.

(** The body of [GetRecords]. *)
Definition getRecords (p : Provider) (ctx : Context) (zone : string)
    : M (list libdns.Record_) :=
  let client := getHTTPClient p in
  let domain := getDomain zone in
  let url := getApiHost p ++ "/v1/domains/" ++ domain ++ "/records" in
  req <- newRequest ctx "GET" url None errCreateRequest ;;
  let req := setCommonHeaders p req in
  resp <- doRequest client req errExecuteRequest ;;
  match ReadErr resp with
  | Some cause => fail (errReadBody cause)
  | None =>
      if negb (StatusCode resp =? 200)%Z
      then fail (errAPIStatus (StatusCode resp) (Body resp))
      else
        match json_Unmarshal (Body resp) with
        | None => fail errParseJSON
        | Some resultObj =>
            ret (map (convertToLibdnsRecord mapUnicodeToUpper) resultObj)
        end
  end.

(** [func (p *Provider) GetRecords(ctx, zone) ([]libdns.Record, error)] *)
Definition GetRecords (p : Provider) (ctx : Context) (zone : string) (s : Net)
    : (list libdns.Record_ * option error) * Net :=
  results (getRecords p ctx zone s).

(** The URL of the write and of the delete call for a type and a name. *)
Definition recordURL (p : Provider) (zone type name : string) : string :=
  getApiHost p ++ "/v1/domains/" ++ getDomain zone ++ "/records/"
  ++ type ++ "/" ++ name.

(** The request that the loop of [AppendRecords] sends for a record. *)
Definition appendRequest (p : Provider) (ctx : Context) (zone : string)
    (record : libdns.Record_) : Request :=
  let gr := fst (convertFromLibdnsRecord record zone) in
  setHeader "Content-Type" "application/json"
    (setCommonHeaders p
       (mkRequest ctx "PUT" (recordURL p zone (Type_ gr) (Name gr)) []
                  (Some (json_Marshal [gr])))).

(** The loop of [AppendRecords] over the records left, with the records
    appended so far. *)
Fixpoint appendLoop (p : Provider) (ctx : Context) (zone : string)
    (client : Client) (records appendedRecords : list libdns.Record_)
    : M (list libdns.Record_) :=
  match records with
  | [] => ret appendedRecords
  | record :: rest =>
      let gr := fst (convertFromLibdnsRecord record zone) in
      let data := json_Marshal [gr] in
      let url := recordURL p zone (Type_ gr) (Name gr) in
      req <- newRequest ctx "PUT" url (Some data) errCreateRequest ;;
      let req := setHeader "Content-Type" "application/json"
                   (setCommonHeaders p req) in
      resp <- doRequest client req errExecuteRequest ;;
      if negb (StatusCode resp =? 200)%Z
      then fail (errAppendStatus (Name gr) (getDomain zone)
                   (StatusCode resp) (Body resp))
      else appendLoop p ctx zone client rest (appendedRecords ++ [record])%list
  end.

(** [func (p *Provider) AppendRecords(ctx, zone, records) ([]libdns.Record, error)] *)
Definition AppendRecords (p : Provider) (ctx : Context) (zone : string)
    (records : list libdns.Record_) (s : Net)
    : (list libdns.Record_ * option error) * Net :=
  results (appendLoop p ctx zone (getHTTPClient p) records [] s).

(** [func (p *Provider) SetRecords(ctx, zone, records) ([]libdns.Record, error)
    { return p.AppendRecords(ctx, zone, records) }] *)
Definition SetRecords (p : Provider) (ctx : Context) (zone : string)
    (records : list libdns.Record_) (s : Net)
    : (list libdns.Record_ * option error) * Net :=
  AppendRecords p ctx zone records s.

(** The inner loop of the search in [DeleteRecords]: the first current
    record with the type and the relative name asked for ([break]). *)
Fixpoint firstMatch (zone recordType recordName : string)
    (currentRecords : list libdns.Record_) : option libdns.Record_ :=
  match currentRecords with
  | [] => None
  | current :: rest =>
      let currentRR := libdns.toRR current in
      if (libdns.Type_ currentRR =? recordType)
         && (getRecordName zone (libdns.Name currentRR) =? recordName)
      then Some current
      else firstMatch zone recordType recordName rest
  end.

(** The outer loop of the search, with the records collected so far. *)
Fixpoint findExisting (zone : string) (records currentRecords
    deletedRecords : list libdns.Record_) : list libdns.Record_ :=
  match records with
  | [] => deletedRecords
  | record :: rest =>
      let recordRR := libdns.toRR record in
      let recordName := getRecordName zone (libdns.Name recordRR) in
      findExisting zone rest currentRecords
        match firstMatch zone (libdns.Type_ recordRR) recordName currentRecords with
        | Some current => (deletedRecords ++ [current])%list
        | None => deletedRecords
        end
  end.

(** The request that the delete loop sends for a record. *)
Definition deleteRequest (p : Provider) (ctx : Context) (zone : string)
    (record : libdns.Record_) : Request :=
  let rr := libdns.toRR record in
  setCommonHeaders p
    (mkRequest ctx "DELETE"
       (recordURL p zone (libdns.Type_ rr) (getRecordName zone (libdns.Name rr)))
       [] None).

(** The delete loop of [DeleteRecords]. *)
Fixpoint deleteLoop (p : Provider) (ctx : Context) (zone : string)
    (client : Client) (deletedRecords : list libdns.Record_) : M unit :=
  match deletedRecords with
  | [] => ret tt
  | record :: rest =>
      let rr := libdns.toRR record in
      let recordName := getRecordName zone (libdns.Name rr) in
      let url := recordURL p zone (libdns.Type_ rr) recordName in
      req <- newRequest ctx "DELETE" url None errCreateDeleteRequest ;;
      let req := setCommonHeaders p req in
      resp <- doRequest client req errExecuteDeleteRequest ;;
      if negb (StatusCode resp =? 204)%Z
      then fail (errDeleteStatus recordName (getDomain zone)
                   (StatusCode resp) (Body resp))
      else deleteLoop p ctx zone client rest
  end.

(** [func (p *Provider) DeleteRecords(ctx, zone, records) ([]libdns.Record, error)] *)
Definition DeleteRecords (p : Provider) (ctx : Context) (zone : string)
    (records : list libdns.Record_) (s : Net)
    : (list libdns.Record_ * option error) * Net :=
  results
    match getRecords p ctx zone s with
    | (inl err, s1) => (inl (errGetCurrent err), s1)
    | (inr currentRecords, s1) =>
        let deletedRecords := findExisting zone records currentRecords [] in
        match deleteLoop p ctx zone (getHTTPClient p) deletedRecords s1 with
        | (inl err, s2) => (inl err, s2)
        | (inr _, s2) => (inr deletedRecords, s2)
        end
    end.

End Remote.

Arguments mkRequest {Context}.
Arguments Ctx {Context}.
Arguments Method {Context}.
Arguments URL {Context}.
Arguments Header {Context}.
Arguments ReqBody {Context}.
Arguments mkNet {Context World}.
Arguments world {Context World}.
Arguments sent {Context World}.
Arguments M : clear implicits.
Arguments results {Context World A}.
Arguments setCommonHeaders {Context}.
Arguments appendRequest {Context}.
Arguments deleteRequest {Context}.
Arguments getRecords mapUnicodeToUpper {Context World}.
Arguments GetRecords mapUnicodeToUpper {Context World}.
Arguments appendLoop {Context World}.
Arguments AppendRecords {Context World}.
Arguments SetRecords {Context World}.
Arguments deleteLoop {Context World}.
Arguments DeleteRecords mapUnicodeToUpper {Context World}.

(** A call failed: a transport error, or a status other than the one the
    caller takes for success. *)
Definition callFailed (success : Z) (outcome : string + Response) : Prop :=
  match outcome with
  | inl _ => True
  | inr resp => StatusCode resp <> success
  end.

(** The error that [AppendRecords] returns for a failed call. *)
Definition appendError (zone : string) (record : libdns.Record_)
    (outcome : string + Response) : error :=
  match outcome with
  | inl cause => errExecuteRequest cause
  | inr resp =>
      errAppendStatus (Name (fst (convertFromLibdnsRecord record zone)))
        (getDomain zone) (StatusCode resp) (Body resp)
  end.

(** The error that [DeleteRecords] returns for a failed delete call. *)
Definition deleteError (zone : string) (record : libdns.Record_)
    (outcome : string + Response) : error :=
  match outcome with
  | inl cause => errExecuteDeleteRequest cause
  | inr resp =>
      errDeleteStatus (getRecordName zone (libdns.Name (libdns.toRR record)))
        (getDomain zone) (StatusCode resp) (Body resp)
  end.

(** The match key of the delete search: the type and the relative name of
    the RR view. *)
Definition matchKey (zone : string) (r : libdns.Record_) : string * string :=
  (libdns.Type_ (libdns.toRR r), getRecordName zone (libdns.Name (libdns.toRR r))).

(** What one delete request contributes: the first current record with its
    key, or nothing. *)
Definition matched (zone : string) (current : list libdns.Record_)
    (r : libdns.Record_) : list libdns.Record_ :=
  match firstMatch zone (libdns.Type_ (libdns.toRR r))
          (getRecordName zone (libdns.Name (libdns.toRR r))) current with
  | Some c => [c]
  | None => []
  end.

(** The URL of the write call of a record and of the delete call of one. *)
Definition appendURL (p : Provider) (zone : string) (record : libdns.Record_) : string :=
  recordURL p zone (Type_ (fst (convertFromLibdnsRecord record zone)))
            (Name (fst (convertFromLibdnsRecord record zone))).

Definition deleteURL (p : Provider) (zone : string) (record : libdns.Record_) : string :=
  recordURL p zone (libdns.Type_ (libdns.toRR record))
            (getRecordName zone (libdns.Name (libdns.toRR record))).

(* ------------------------------------------------------------------ *)
(** *** A vendor for the examples *)

(** The example vendor keeps a journal of the write and delete calls it
    applied.  It answers a GET with the fixed zone below, refuses a call for
    a record named ["rejected"] with status 422, is out of reach for a
    record named ["unreachable"], and applies any other call. *)
Definition exampleZone : list godaddyRecord :=
  [ mkRecord "A" "www" "192.168.1.1" 3600;
    mkRecord "TXT" "rejected" "locked" 600;
    mkRecord "A" "www" "192.168.1.2" 3600;
    mkRecord "TXT" "_acme-challenge" "token" 600 ].

Definition exampleDo (client : Client) (req : Request unit) (journal : list string)
    : (string + Response) * list string :=
  if Method req =? "GET" then (inr (mkResponse 200 "zone" None), journal)
  else if strings.HasSuffix (URL req) "/rejected"
  then (inr (mkResponse 422 "rejected" None), journal)
  else if strings.HasSuffix (URL req) "/unreachable"
  then (inl "connection refused", journal)
  else (inr (mkResponse (if Method req =? "PUT" then 200%Z else 204%Z) "" None),
        (journal ++ [(Method req ++ " " ++ URL req)%string])%list).

Definition exampleNewRequestErr (ctx : unit) (method url : string) : option string :=
  None.

Definition exampleMarshal (records : list godaddyRecord) : string := "[...]".

Definition exampleUnmarshal (body : string) : option (list godaddyRecord) :=
  if body =? "zone" then Some exampleZone else None.

Definition exampleProvider : Provider := mkProvider "key:secret" false 0%Z.

Definition exampleStart : Net unit (list string) := mkNet [] [].

Definition txt (name : string) : libdns.Record_ :=
  libdns.TXT name (600 * time.Second)%Z "value".
(* ================================================================== *)
(** ** Further vocabulary *)
(* ================================================================== *)

(** The range of [int64], which is the range of [time.Duration]. *)
Definition inInt64 (z : Z) : Prop := (- 2 ^ 63 <= z < 2 ^ 63)%Z.

(** The duration that comes back for a duration written to the vendor: its
    whole seconds, raised to the floor of 600. *)
Definition flooredTTL (ttl : time.Duration) : time.Duration :=
  (Z.max 600 (Z.quot ttl time.Second) * time.Second)%Z.

(** A record as it reads back after it was written into a zone: the name
    relative to the zone and the TTL in whole seconds with the floor. *)
Definition asWritten (zone : string) (r : libdns.Record_) : libdns.Record_ :=
  match r with
  | libdns.Address name ttl ip =>
      libdns.Address (getRecordName zone name) (flooredTTL ttl) ip
  | libdns.TXT name ttl text => libdns.TXT (getRecordName zone name) (flooredTTL ttl) text
  | libdns.CNAME name ttl target =>
      libdns.CNAME (getRecordName zone name) (flooredTTL ttl) target
  | libdns.MX name ttl preference target =>
      libdns.MX (getRecordName zone name) (flooredTTL ttl) preference target
  | libdns.NS name ttl target => libdns.NS (getRecordName zone name) (flooredTTL ttl) target
  | libdns.Raw rr =>
      libdns.Raw (libdns.mkRR (getRecordName zone (libdns.Name rr))
                    (flooredTTL (libdns.TTL rr)) (libdns.Type_ rr) (libdns.Data rr))
  end.



(** The request that [GetRecords] sends. *)
Definition getRequest {Context : Type} (p : Provider) (ctx : Context)
    (zone : string) : Request Context :=
  setCommonHeaders p
    (mkRequest ctx "GET"
       (getApiHost p ++ "/v1/domains/" ++ getDomain zone ++ "/records") [] None).



(* ================================================================== *)
(** ** Facts about [strings] *)
(* ================================================================== *)

Lemma string_length_app (a b : string) :
  String.length (a ++ b) = (String.length a + String.length b)%nat.
Proof.
  induction a as [|c a IH]; simpl; [reflexivity | now rewrite IH].
Qed.

Lemma take_app_length (a b : string) : strings.take (String.length a) (a ++ b) = a.
Proof.
  induction a as [|c a IH]; simpl.
  - destruct b; reflexivity.
  - now rewrite IH.
Qed.

Lemma drop_app_length (a b : string) : strings.drop (String.length a) (a ++ b) = b.
Proof.
  induction a as [|c a IH]; simpl; [destruct b; reflexivity | exact IH].
Qed.

Lemma take_drop (n : nat) (s : string) : strings.take n s ++ strings.drop n s = s.
Proof.
  revert s; induction n as [|n IH]; intros [|c s]; simpl; try reflexivity.
  now rewrite IH.
Qed.

Lemma HasSuffix_app (p suffix : string) : strings.HasSuffix (p ++ suffix) suffix = true.
Proof.
  unfold strings.HasSuffix. rewrite string_length_app.
  replace (String.length p + String.length suffix - String.length suffix)%nat
    with (String.length p) by lia.
  rewrite drop_app_length, String.eqb_refl, andb_true_r.
  apply Nat.leb_le. lia.
Qed.

Lemma HasSuffix_true (s suffix : string) :
  strings.HasSuffix s suffix = true <-> endsWith s suffix.
Proof.
  unfold endsWith. split.
  - unfold strings.HasSuffix. intros H.
    apply andb_true_iff in H as [_ H]. apply String.eqb_eq in H.
    exists (strings.take (String.length s - String.length suffix) s).
    pose proof (take_drop (String.length s - String.length suffix) s) as E.
    rewrite H in E. now symmetry.
  - intros [p ->]. apply HasSuffix_app.
Qed.

Lemma TrimSuffix_app (p suffix : string) : strings.TrimSuffix (p ++ suffix) suffix = p.
Proof.
  unfold strings.TrimSuffix. rewrite HasSuffix_app, string_length_app.
  replace (String.length p + String.length suffix - String.length suffix)%nat
    with (String.length p) by lia.
  apply take_app_length.
Qed.

Lemma TrimSuffix_none (s suffix : string) :
  ~ endsWith s suffix -> strings.TrimSuffix s suffix = s.
Proof.
  intros H. unfold strings.TrimSuffix.
  destruct (strings.HasSuffix s suffix) eqn:E; [|reflexivity].
  now apply HasSuffix_true in E.
Qed.

Lemma HasSuffix_false (s suffix : string) :
  strings.HasSuffix s suffix = false <-> ~ endsWith s suffix.
Proof.
  rewrite <- HasSuffix_true.
  destruct (strings.HasSuffix s suffix); intuition congruence.
Qed.

Lemma Index_byte_none (c : ascii) (s : string) :
  ~ hasByte c s -> strings.Index s (String c "") = None.
Proof.
  unfold hasByte. induction s as [|x s IH]; intros H; simpl.
  - reflexivity.
  - simpl in H. destruct (ascii_dec c x) as [->|Hne].
    + elim H. now left.
    + rewrite IH; [reflexivity | tauto].
Qed.

Lemma Index_byte_app (c : ascii) (a b : string) :
  ~ hasByte c a ->
  strings.Index (a ++ String c b) (String c "") = Some (String.length a).
Proof.
  unfold hasByte. induction a as [|x a IH]; intros H; simpl.
  - destruct (ascii_dec c c); [now destruct b | congruence].
  - simpl in H. destruct (ascii_dec c x) as [->|Hne].
    + elim H. now left.
    + rewrite IH; [reflexivity | tauto].
Qed.

Lemma genSplit_none (k : nat) (s sep : string) :
  strings.Index s sep = None -> strings.genSplit k s sep = [s].
Proof.
  intros H. destruct k; simpl; [reflexivity | now rewrite H].
Qed.

(** [SplitN(s, " ", 2)] on a string without a space is the string alone. *)
Lemma SplitN_space_none (s : string) :
  ~ hasByte " " s -> strings.SplitN s " " 2 = [s].
Proof.
  intros H. unfold strings.SplitN. apply genSplit_none.
  now apply Index_byte_none.
Qed.

(** [SplitN(s, " ", 2)] cuts at the first space, and only there. *)
Lemma SplitN_space_cut (a b : string) :
  ~ hasByte " " a -> strings.SplitN (a ++ " " ++ b) " " 2 = [a; b].
Proof.
  intros H. unfold strings.SplitN.
  replace (Nat.min 2 (String.length (a ++ " " ++ b) + 1) - 1)%nat with 1%nat.
  2:{ rewrite string_length_app. change (" " ++ b) with (String " " b).
      cbn [String.length]. lia. }
  cbn [strings.genSplit]. change (" " ++ b) with (String " " b).
  rewrite (Index_byte_app " " a b H).
  rewrite take_app_length.
  rewrite <- string_length_app.
  replace (a ++ String " " b) with ((a ++ " ") ++ b).
  2:{ clear H. induction a; simpl; [reflexivity | now f_equal]. }
  now rewrite drop_app_length.
Qed.

Lemma mapBytes_upper_fixed (s : string) :
  strings.allBytes (fun c => negb (strings.isLower c)) s = true ->
  strings.mapBytes strings.upperByte s = s.
Proof.
  induction s as [|c s IH]; cbn [strings.allBytes strings.mapBytes]; [reflexivity|].
  intros H. apply andb_true_iff in H as [Hc Hs]. rewrite (IH Hs).
  unfold strings.upperByte. apply negb_true_iff in Hc. now rewrite Hc.
Qed.

(** On an ASCII string [ToUpper] upper-cases the letters [a]..[z] byte by
    byte, whatever the Unicode tables hold. *)
Lemma ToUpper_ascii (U : string -> string) (s : string) :
  strings.isASCII s = true ->
  strings.ToUpper U s = strings.mapBytes strings.upperByte s.
Proof.
  intros H. unfold strings.ToUpper. rewrite H.
  destruct (strings.allBytes _ s) eqn:E; [|reflexivity].
  symmetry. now apply mapBytes_upper_fixed.
Qed.

(** Case analysis on the condition of the first [if] of the goal. *)
Ltac case_if H :=
  match goal with
  | |- context [if ?b then _ else _] => destruct b eqn:H
  end.

Lemma digitVal_nonneg (c : ascii) (v : Z) : strconv.digitVal c = Some v -> (0 <= v)%Z.
Proof.
  unfold strconv.digitVal. cbv zeta.
  case_if E1.
  - intros [= <-]. apply andb_true_iff in E1 as [E1 _]. apply Z.leb_le in E1. lia.
  - case_if E2; [|easy].
    intros [= <-]. apply andb_true_iff in E2 as [E2 _]. apply Z.leb_le in E2. lia.
Qed.

Lemma parseLoop_range (cs : string) (base maxVal cutoff n p : Z) :
  (0 <= base)%Z -> (0 <= n <= maxVal)%Z ->
  strconv.parseLoop cs base maxVal cutoff n = Some p -> (0 <= p <= maxVal)%Z.
Proof.
  intros Hb. revert n. induction cs as [|c cs IH]; intros n Hn; simpl.
  - intros [= <-]. exact Hn.
  - destruct (strconv.digitVal c) as [v|] eqn:Ed; [|easy].
    apply digitVal_nonneg in Ed.
    case_if E1; [easy|]. case_if E2; [easy|]. case_if E3; [easy|].
    apply orb_false_iff in E3 as [_ E3]. apply Z.ltb_ge in E3.
    apply IH. nia.
Qed.

(** A preference that [ParseUint(s, 10, 16)] accepts is a [uint16]. *)
Lemma ParseUint_16_range (s : string) (p : Z) :
  strconv.ParseUint s 10 16 = Some p -> (0 <= p < 2 ^ 16)%Z.
Proof.
  unfold strconv.ParseUint. destruct (s =? ""); [easy|]. simpl.
  intros H. apply parseLoop_range in H; lia.
Qed.

Lemma digitVal_decimal (c : ascii) :
  if netip.isDigit c
  then strconv.digitVal c = Some (netip.byteVal c - 48)%Z
       /\ (0 <= netip.byteVal c - 48 <= 9)%Z
  else strconv.digitVal c = None
       \/ exists v, strconv.digitVal c = Some v /\ (10 <= v)%Z.
Proof.
  unfold netip.isDigit, strconv.digitVal, netip.byteVal. cbv zeta.
  case_if E.
  - apply andb_true_iff in E as [E1 E2]. apply Z.leb_le in E1, E2. split; [reflexivity | lia].
  - case_if E2; [right | now left].
    apply andb_true_iff in E2 as [E2 _]. apply Z.leb_le in E2.
    eexists. split; [reflexivity | lia].
Qed.

Lemma decimalValue_ge (s : string) (n : Z) :
  (0 <= n)%Z -> strings.allBytes netip.isDigit s = true -> (n <= decimalValue s n)%Z.
Proof.
  revert n. induction s as [|c s IH]; intros n Hn Hd; cbn [decimalValue]; [lia|].
  cbn [strings.allBytes] in Hd. apply andb_true_iff in Hd as [Hc Hs].
  pose proof (digitVal_decimal c) as D. rewrite Hc in D. destruct D as [_ D].
  specialize (IH (n * 10 + (netip.byteVal c - 48))%Z ltac:(lia) Hs). lia.
Qed.

Lemma parseLoop_decimal (s : string) (n p : Z) :
  (0 <= n <= 65535)%Z ->
  strconv.parseLoop s 10 65535 1844674407370955162 n = Some p
  <-> strings.allBytes netip.isDigit s = true
      /\ decimalValue s n = p /\ (p <= 65535)%Z.
Proof.
  revert n. induction s as [|c s IH]; intros n Hn;
    cbn [strconv.parseLoop strings.allBytes decimalValue].
  - split; [intros [= <-]; repeat split; lia | now intros (_ & -> & _)].
  - pose proof (digitVal_decimal c) as D.
    destruct (netip.isDigit c) eqn:Hc; cbn [andb].
    + destruct D as [-> D].
      replace (10 <=? netip.byteVal c - 48)%Z with false by (symmetry; apply Z.leb_gt; lia).
      replace (1844674407370955162 <=? n)%Z with false by (symmetry; apply Z.leb_gt; lia).
      replace (2 ^ 64 <=? n * 10 + (netip.byteVal c - 48))%Z with false
        by (symmetry; apply Z.leb_gt; lia).
      cbn [orb]. destruct (Z.ltb_spec 65535 (n * 10 + (netip.byteVal c - 48))) as [Hov | Hok].
      * split; [discriminate|]. intros (Hs & Hv & Hp).
        pose proof (decimalValue_ge s (n * 10 + (netip.byteVal c - 48))%Z
                      ltac:(lia) Hs). lia.
      * apply IH. lia.
    + split; [|now intros [? _]].
      destruct D as [-> | (v & -> & Hv)]; [discriminate|].
      replace (10 <=? v)%Z with true by (symmetry; apply Z.leb_le; lia). discriminate.
Qed.

(** [ParseUint(s, 10, 16)] accepts exactly the non-empty strings of decimal
    digits that write a number up to 65535, and gives that number. *)
Lemma ParseUint_10_16 (s : string) (p : Z) :
  strconv.ParseUint s 10 16 = Some p
  <-> s <> "" /\ strings.allBytes netip.isDigit s = true
      /\ decimalValue s 0 = p /\ (p <= 65535)%Z.
Proof.
  unfold strconv.ParseUint. destruct (String.eqb_spec s "") as [-> | Hne].
  - split; [discriminate | now intros [? _]].
  - change ((10 <? 2)%Z || (36 <? 10)%Z || (16 <? 0)%Z || (64 <? 16)%Z) with false.
    cbv iota zeta.
    change (if (16 =? 0)%Z then 64%Z else 16%Z) with 16%Z.
    change ((2 ^ 64 - 1) / 10 + 1)%Z with 1844674407370955162%Z.
    change (2 ^ 16 - 1)%Z with 65535%Z.
    rewrite (parseLoop_decimal s 0 p ltac:(lia)). tauto.
Qed.

Lemma secondsToDuration_exact (n : Z) :
  fitsDuration n -> secondsToDuration n = (n * time.Second)%Z.
Proof.
  unfold fitsDuration, secondsToDuration, wrap64, time.Second. intros H.
  rewrite Z.mod_small; lia.
Qed.

(* ================================================================== *)
(** ** The test cases of the package *)
(* ================================================================== *)

(** [TestProviderConfiguration] and [TestHTTPClientConfiguration]. *)
Example test_provider_configuration :
  getApiHost (mkProvider "test:secret" false 0%Z) = "https://api.godaddy.com"
  /\ getApiHost (mkProvider "test:secret" true 0%Z) = "https://api.ote-godaddy.com"
  /\ Timeout (getHTTPClient (mkProvider "test:secret" false 0%Z)) = (30 * time.Second)%Z
  /\ Timeout (getHTTPClient (mkProvider "test:secret" false (60 * time.Second)%Z))
     = (60 * time.Second)%Z.
Proof.
  repeat split.
Qed.

(** [TestConvertToLibdnsRecord], which compares the RR views. *)
Example test_convertToLibdnsRecord :
  libdns.toRR (convertToLibdnsRecord noUnicode (mkRecord "A" "www" "192.168.1.1" 3600))
  = libdns.toRR (libdns.Address "www" time.Hour (netip.Addr4 192 168 1 1))
  /\ libdns.toRR (convertToLibdnsRecord noUnicode
                    (mkRecord "TXT" "_acme-challenge" "test-challenge-token" 300))
     = libdns.toRR (libdns.TXT "_acme-challenge" (5 * time.Minute)%Z "test-challenge-token")
  /\ libdns.toRR (convertToLibdnsRecord noUnicode (mkRecord "CNAME" "blog" "example.com" 3600))
     = libdns.toRR (libdns.CNAME "blog" time.Hour "example.com")
  /\ libdns.toRR (convertToLibdnsRecord noUnicode
                    (mkRecord "MX" "@" "10 mail.example.com" 3600))
     = libdns.toRR (libdns.MX "@" time.Hour 10 "mail.example.com")
  /\ libdns.toRR (convertToLibdnsRecord noUnicode
                    (mkRecord "MX" "@" "invalid-mx-format" 3600))
     = libdns.mkRR "@" time.Hour "MX" "invalid-mx-format".
Proof.
  repeat split; vm_compute; reflexivity.
Qed.

(** [TestConvertFromLibdnsRecord]. *)
Example test_convertFromLibdnsRecord :
  convertFromLibdnsRecord
    (libdns.Address "www.example.com." time.Hour (netip.Addr4 192 168 1 1)) "example.com."
  = (mkRecord "A" "www" "192.168.1.1" 3600, None)
  /\ convertFromLibdnsRecord
       (libdns.TXT "_acme-challenge.example.com." (5 * time.Minute)%Z "test-challenge-token")
       "example.com."
     = (mkRecord "TXT" "_acme-challenge" "test-challenge-token" 600, None)
  /\ convertFromLibdnsRecord
       (libdns.TXT "_acme-challenge.example.com." (15 * time.Minute)%Z "test-challenge-token")
       "example.com."
     = (mkRecord "TXT" "_acme-challenge" "test-challenge-token" 900, None).
Proof.
  repeat split; vm_compute; reflexivity.
Qed.

(** [TestGetRecordName]. *)
Example test_getRecordName :
  getRecordName "example.com." "@" = "@"
  /\ getRecordName "example.com." "www.example.com." = "www"
  /\ getRecordName "example.com." "sub.example.com." = "sub"
  /\ getRecordName "example.com." "test" = "test"
  /\ getRecordName "example.com." "_acme-challenge.sub.example.com."
     = "_acme-challenge.sub".
Proof.
  repeat split.
Qed.

(* ================================================================== *)
(** ** The name resolver *)
(* ================================================================== *)

(** C4.  [getRecordName] returns ["@"] for the name ["@"]; for any other name
    it strips one trailing occurrence of the zone and then one trailing dot:
    a name [p ++ zone] becomes [q] when [p] is [q ++ "."] and [p] when [p]
    does not end with a dot.  In particular ["www.example.com."] and
    ["_acme-challenge.sub.example.com."] in the zone ["example.com."] become
    ["www"] and ["_acme-challenge.sub"]. *)
Theorem getRecordName_spec (zone name : string) :
  getRecordName zone "@" = "@"
  /\ (name <> "@" ->
      getRecordName zone name
      = strings.TrimSuffix (strings.TrimSuffix name zone) ".")
  /\ (forall p q, name = p ++ zone -> name <> "@" -> p = q ++ "." ->
      getRecordName zone name = q)
  /\ (forall p, name = p ++ zone -> name <> "@" -> ~ endsWith p "." ->
      getRecordName zone name = p)
  /\ getRecordName "example.com." "www.example.com." = "www"
  /\ getRecordName "example.com." "_acme-challenge.sub.example.com."
     = "_acme-challenge.sub".
Proof.
  assert (Hne : forall n, n <> "@" -> (n =? "@") = false)
    by (intros n; apply String.eqb_neq).
  repeat split.
  - intros H. unfold getRecordName. now rewrite (Hne _ H).
  - intros p q -> H ->. unfold getRecordName. rewrite (Hne _ H).
    now rewrite !TrimSuffix_app.
  - intros p -> H Hp. unfold getRecordName. rewrite (Hne _ H).
    rewrite TrimSuffix_app. now apply TrimSuffix_none.
Qed.

(** C5 as stated fails: ["www."] does not end with the zone
    ["example.com."], and it loses its trailing dot all the same. *)
Lemma relative_name_loses_trailing_dot :
  "www." <> "@"
  /\ ~ endsWith "www." "example.com."
  /\ getRecordName "example.com." "www." = "www"
  /\ getRecordName "example.com." "www." <> "www.".
Proof.
  split; [discriminate|]. split; [now apply HasSuffix_false|].
  split; [reflexivity | discriminate].
Qed.

(** C5, amended.  For a name other than ["@"] that does not end with the
    zone, [getRecordName] strips one trailing dot and nothing else: the name
    [q ++ "."] becomes [q], and a name that does not end with a dot is
    returned unchanged. *)
Theorem getRecordName_relative (zone name : string) :
  name <> "@" ->
  ~ endsWith name zone ->
  getRecordName zone name = strings.TrimSuffix name "."
  /\ (forall q, name = q ++ "." -> getRecordName zone name = q)
  /\ (~ endsWith name "." -> getRecordName zone name = name).
Proof.
  intros Hat Hz.
  assert (E : getRecordName zone name = strings.TrimSuffix name ".").
  { unfold getRecordName. apply String.eqb_neq in Hat. rewrite Hat.
    now rewrite (TrimSuffix_none _ _ Hz). }
  repeat split.
  - exact E.
  - intros q ->. rewrite E. apply TrimSuffix_app.
  - intros Hd. rewrite E. now apply TrimSuffix_none.
Qed.

Lemma getRecordName_relative_witness :
  "test" <> "@"
  /\ ~ endsWith "test" "example.com."
  /\ (getRecordName "example.com." "test" = strings.TrimSuffix "test" "."
      /\ (forall q, "test" = q ++ "." -> getRecordName "example.com." "test" = q)
      /\ (~ endsWith "test" "." -> getRecordName "example.com." "test" = "test")).
Proof.
  assert (Hz : ~ endsWith "test" "example.com.") by now apply HasSuffix_false.
  split; [discriminate|]. split; [exact Hz|].
  apply (getRecordName_relative "example.com." "test"); [discriminate | exact Hz].
Defined.

(* ================================================================== *)
(** ** The TTL policy *)
(* ================================================================== *)

(** C3.  The vendor TTL that [convertFromLibdnsRecord] writes is the
    record's TTL in whole seconds (the quotient truncated toward zero) when
    that is at least 600, and 600 when it is below, zero and negative values
    included; no error is returned.  Five minutes become 600 and fifteen
    minutes stay 900. *)
Theorem convertFromLibdnsRecord_ttl_floor (record : libdns.Record_) (zone : string) :
  let seconds := Z.quot (libdns.TTL (libdns.toRR record)) time.Second in
  let gr := fst (convertFromLibdnsRecord record zone) in
  (600 <= seconds -> TTL gr = seconds)%Z
  /\ (seconds < 600 -> TTL gr = 600)%Z
  /\ TTL gr = Z.max 600 seconds
  /\ snd (convertFromLibdnsRecord record zone) = None
  /\ TTL (fst (convertFromLibdnsRecord
                 (libdns.TXT "_acme-challenge.example.com." (5 * time.Minute)%Z "token")
                 "example.com.")) = 600%Z
  /\ TTL (fst (convertFromLibdnsRecord
                 (libdns.TXT "_acme-challenge.example.com." (15 * time.Minute)%Z "token")
                 "example.com.")) = 900%Z.
Proof.
  cbv zeta. unfold convertFromLibdnsRecord. cbn [fst snd TTL].
  set (s := Z.quot _ _).
  destruct (Z.ltb_spec s 600); repeat split; try reflexivity; lia.
Qed.

(* ================================================================== *)
(** ** The record codec: decode *)
(* ================================================================== *)

Section Decode.

Variable U : string -> string.

(** Case analysis on the first string comparison of the goal. *)
Ltac case_eqb :=
  match goal with
  | |- context [String.eqb ?a ?b] =>
      destruct (String.eqb_spec a b); cbn [orb andb]
  end.

Lemma decode_address (gr : godaddyRecord) (ip : netip.Addr) :
  strings.ToUpper U (Type_ gr) = "A" \/ strings.ToUpper U (Type_ gr) = "AAAA" ->
  netip.ParseAddr (Data gr) = Some ip ->
  convertToLibdnsRecord U gr
  = libdns.Address (Name gr) (secondsToDuration (TTL gr)) ip.
Proof.
  intros Ht Hp. unfold convertToLibdnsRecord. cbv zeta. rewrite Hp.
  destruct Ht as [-> | ->]; reflexivity.
Qed.

Lemma decode_bad_address (gr : godaddyRecord) :
  strings.ToUpper U (Type_ gr) = "A" \/ strings.ToUpper U (Type_ gr) = "AAAA" ->
  netip.ParseAddr (Data gr) = None ->
  convertToLibdnsRecord U gr = rawFallback gr.
Proof.
  intros Ht Hp. unfold convertToLibdnsRecord. cbv zeta. rewrite Hp.
  destruct Ht as [-> | ->]; reflexivity.
Qed.

Lemma decode_unknown (gr : godaddyRecord) :
  ~ In (strings.ToUpper U (Type_ gr)) ["A"; "AAAA"; "TXT"; "CNAME"; "MX"; "NS"] ->
  convertToLibdnsRecord U gr = rawFallback gr.
Proof.
  intros H. unfold convertToLibdnsRecord. cbv zeta.
  repeat (case_eqb; [elim H; cbn [In]; intuition congruence |]).
  reflexivity.
Qed.

Lemma decode_MX_parts (gr : godaddyRecord) :
  strings.ToUpper U (Type_ gr) = "MX" ->
  convertToLibdnsRecord U gr
  = let parts := strings.SplitN (Data gr) " " 2 in
    if (List.length parts =? 2)%nat then
      match strconv.ParseUint (nth 0 parts "") 10 16 with
      | Some pref =>
          libdns.MX (Name gr) (secondsToDuration (TTL gr)) (pref mod 2 ^ 16)%Z
                    (nth 1 parts "")
      | None => rawFallback gr
      end
    else rawFallback gr.
Proof.
  intros Ht. unfold convertToLibdnsRecord. cbv zeta. rewrite Ht. reflexivity.
Qed.

Lemma decode_MX_cut (gr : godaddyRecord) (a b : string) :
  strings.ToUpper U (Type_ gr) = "MX" ->
  Data gr = a ++ " " ++ b -> ~ hasByte " " a ->
  convertToLibdnsRecord U gr
  = match strconv.ParseUint a 10 16 with
    | Some p => libdns.MX (Name gr) (secondsToDuration (TTL gr)) p b
    | None => rawFallback gr
    end.
Proof.
  intros Ht Hd Ha. rewrite (decode_MX_parts gr Ht). cbv zeta.
  rewrite Hd, (SplitN_space_cut a b Ha). cbn [List.length Nat.eqb nth].
  destruct (strconv.ParseUint a 10 16) as [p|] eqn:Hp; [|reflexivity].
  apply ParseUint_16_range in Hp. now rewrite Z.mod_small.
Qed.

Lemma decode_MX_no_space (gr : godaddyRecord) :
  strings.ToUpper U (Type_ gr) = "MX" -> ~ hasByte " " (Data gr) ->
  convertToLibdnsRecord U gr = rawFallback gr.
Proof.
  intros Ht Hd. rewrite (decode_MX_parts gr Ht). cbv zeta.
  now rewrite (SplitN_space_none _ Hd).
Qed.

(** C1, amended.  Decoding is a total function with no error result.  When
    the data of a vendor record does not parse into the typed variant of
    its declared type (an invalid IP literal under A or AAAA, a malformed
    MX payload, a type without a typed variant such as SRV), the result is
    the Raw variant with the record's own type, name and data, and with
    the record's TTL in seconds as its duration whenever that number of
    seconds fits a 64-bit duration of nanoseconds
    ([-9223372036 <= ttl <= 9223372036]). *)
Theorem decode_fallback_preserves (gr : godaddyRecord) :
  undecodable U gr ->
  exists rr : libdns.RR,
    convertToLibdnsRecord U gr = libdns.Raw rr
    /\ libdns.Type_ rr = Type_ gr
    /\ libdns.Name rr = Name gr
    /\ libdns.Data rr = Data gr
    /\ (fitsDuration (TTL gr) -> libdns.TTL rr = (TTL gr * time.Second)%Z).
Proof.
  intros H.
  assert (E : convertToLibdnsRecord U gr = rawFallback gr).
  { destruct H as [[Ht Hp] | [[Ht Hm] | Hu]].
    - now apply decode_bad_address.
    - destruct Hm as [Hn | (a & b & Hd & Ha & Hp)].
      + now apply decode_MX_no_space.
      + rewrite (decode_MX_cut gr a b Ht Hd Ha). now rewrite Hp.
    - now apply decode_unknown. }
  eexists. split; [exact E|]. cbn [libdns.Type_ libdns.Name libdns.Data libdns.TTL].
  repeat split. apply secondsToDuration_exact.
Qed.

(** C6, amended.  A vendor record whose type upper-cases to MX is cut at
    its first space character (U+0020), and nowhere else.  When the text
    before that space parses as an unsigned 16-bit decimal, the result is
    the MX variant with that preference and with everything after that one
    space as target; when it does not parse, or the data holds no space,
    the result is the Raw fallback with the original type and data.  The
    text parses when it is a non-empty string of decimal digits that writes
    a number up to 65535, which is then the preference. *)
Theorem decode_MX_cuts_at_first_space (gr : godaddyRecord) :
  strings.ToUpper U (Type_ gr) = "MX" ->
  (forall a b p, Data gr = a ++ " " ++ b -> ~ hasByte " " a ->
     strconv.ParseUint a 10 16 = Some p ->
     (0 <= p < 2 ^ 16)%Z
     /\ convertToLibdnsRecord U gr
        = libdns.MX (Name gr) (secondsToDuration (TTL gr)) p b)
  /\ (forall a b, Data gr = a ++ " " ++ b -> ~ hasByte " " a ->
        strconv.ParseUint a 10 16 = None ->
        convertToLibdnsRecord U gr = rawFallback gr)
  /\ (~ hasByte " " (Data gr) -> convertToLibdnsRecord U gr = rawFallback gr)
  /\ (forall a p,
        strconv.ParseUint a 10 16 = Some p
        <-> a <> "" /\ strings.allBytes netip.isDigit a = true
            /\ decimalValue a 0 = p /\ (p <= 65535)%Z).
Proof.
  intros Ht. split; [|split; [|split]]; [| | |apply ParseUint_10_16].
  - intros a b p Hd Ha Hp. split.
    + now apply ParseUint_16_range in Hp.
    + rewrite (decode_MX_cut gr a b Ht Hd Ha). now rewrite Hp.
  - intros a b Hd Ha Hp. rewrite (decode_MX_cut gr a b Ht Hd Ha). now rewrite Hp.
  - now apply decode_MX_no_space.
Qed.

(** Decode dispatch reads the type through [strings.ToUpper] only. *)
Lemma decode_dispatch (gr : godaddyRecord) (t : string) :
  strings.ToUpper U t = strings.ToUpper U (Type_ gr) ->
  convertToLibdnsRecord U (mkRecord t (Name gr) (Data gr) (TTL gr))
  = withRawType t (convertToLibdnsRecord U gr).
Proof.
  intros H. unfold convertToLibdnsRecord. cbv zeta.
  cbn [Type_ Name Data TTL]. rewrite H.
  repeat case_if E; try reflexivity;
    repeat (match goal with |- context [match ?x with _ => _ end] => destruct x end);
    reflexivity.
Qed.

End Decode.

Lemma hasByte_none (c : ascii) (s : string) :
  strings.allBytes (fun x => negb (Ascii.eqb x c)) s = true -> ~ hasByte c s.
Proof.
  unfold hasByte. induction s as [|x s IH]; cbn [strings.allBytes list_ascii_of_string In].
  - tauto.
  - intros H. apply andb_true_iff in H as [Hx Hs].
    intros [E | E]; [|now apply IH].
    subst x. now rewrite Ascii.eqb_refl in Hx.
Qed.

(** No space occurs in a closed string: every byte is compared. *)
Ltac no_space := apply hasByte_none; reflexivity.

(** C1 as stated fails on the TTL: an SRV record with a TTL of 10^10 seconds
    decodes to the Raw variant with its type, name and data, but the product
    [time.Duration(ttl) * time.Second] leaves the 64-bit range and the
    duration that comes out is negative. *)
Lemma decode_fallback_ttl_wraps :
  undecodable noUnicode (mkRecord "SRV" "_sip._tcp" "0 5 5060 sip.example.com" 10000000000)
  /\ convertToLibdnsRecord noUnicode
       (mkRecord "SRV" "_sip._tcp" "0 5 5060 sip.example.com" 10000000000)
     = libdns.Raw (libdns.mkRR "_sip._tcp" (-8446744073709551616)%Z "SRV"
                               "0 5 5060 sip.example.com")
  /\ (-8446744073709551616)%Z <> (10000000000 * time.Second)%Z.
Proof.
  split; [|split].
  - right; right. cbv zeta. cbn [Type_].
    change (strings.ToUpper noUnicode "SRV") with "SRV".
    cbn [In]. intuition discriminate.
  - vm_compute. reflexivity.
  - discriminate.
Qed.

Lemma decode_fallback_preserves_witness :
  undecodable noUnicode (mkRecord "MX" "@" "invalid-mx-format" 3600)
  /\ exists rr : libdns.RR,
       convertToLibdnsRecord noUnicode (mkRecord "MX" "@" "invalid-mx-format" 3600)
       = libdns.Raw rr
       /\ libdns.Type_ rr = "MX"
       /\ libdns.Name rr = "@"
       /\ libdns.Data rr = "invalid-mx-format"
       /\ (fitsDuration 3600 -> libdns.TTL rr = (3600 * time.Second)%Z).
Proof.
  assert (H : undecodable noUnicode (mkRecord "MX" "@" "invalid-mx-format" 3600)).
  { right; left. split; [reflexivity|]. left. no_space. }
  split; [exact H|].
  exact (decode_fallback_preserves noUnicode
           (mkRecord "MX" "@" "invalid-mx-format" 3600) H).
Defined.

(** Decoding the examples of the specification. *)
Example decode_MX_example :
  convertToLibdnsRecord noUnicode (mkRecord "MX" "@" "10 mail.example.com" 3600)
  = libdns.MX "@" time.Hour 10 "mail.example.com"
  /\ convertToLibdnsRecord noUnicode (mkRecord "MX" "@" "invalid-mx-format" 3600)
     = libdns.Raw (libdns.mkRR "@" time.Hour "MX" "invalid-mx-format")
  /\ convertToLibdnsRecord noUnicode (mkRecord "A" "www" "192.168.1.1" 3600)
     = libdns.Address "www" time.Hour (netip.Addr4 192 168 1 1)
  /\ convertToLibdnsRecord noUnicode (mkRecord "A" "www" "not-an-ip" 3600)
     = libdns.Raw (libdns.mkRR "www" time.Hour "A" "not-an-ip").
Proof.
  repeat split; vm_compute; reflexivity.
Qed.

(** C6 as stated fails: with two spaces between the tokens, splitting on the
    first whitespace run gives the target ["mail.example.com"], and the code,
    which cuts at the first space only, gives [" mail.example.com"]; with a
    tab between them the run gives two tokens and the code the Raw fallback. *)
Lemma decode_MX_whitespace_run_differs :
  splitFirstWhitespaceRun "10  mail.example.com" = ["10"; "mail.example.com"]
  /\ decodeMX_spec (mkRecord "MX" "@" "10  mail.example.com" 3600)
     = libdns.MX "@" time.Hour 10 "mail.example.com"
  /\ convertToLibdnsRecord noUnicode (mkRecord "MX" "@" "10  mail.example.com" 3600)
     = libdns.MX "@" time.Hour 10 " mail.example.com"
  /\ convertToLibdnsRecord noUnicode (mkRecord "MX" "@" "10  mail.example.com" 3600)
     <> decodeMX_spec (mkRecord "MX" "@" "10  mail.example.com" 3600)
  /\ decodeMX_spec
       (mkRecord "MX" "@" ("10" ++ String (ascii_of_nat 9) "mail.example.com") 3600)
     = libdns.MX "@" time.Hour 10 "mail.example.com"
  /\ convertToLibdnsRecord noUnicode
       (mkRecord "MX" "@" ("10" ++ String (ascii_of_nat 9) "mail.example.com") 3600)
     = libdns.Raw (libdns.mkRR "@" time.Hour "MX"
                     ("10" ++ String (ascii_of_nat 9) "mail.example.com")).
Proof.
  repeat split; try (vm_compute; reflexivity).
  vm_compute. discriminate.
Qed.

Lemma decode_MX_cuts_at_first_space_witness :
  strings.ToUpper noUnicode "MX" = "MX"
  /\ "10 mail.example.com" = "10" ++ " " ++ "mail.example.com"
  /\ ~ hasByte " " "10"
  /\ strconv.ParseUint "10" 10 16 = Some 10%Z
  /\ ((0 <= 10 < 2 ^ 16)%Z
      /\ convertToLibdnsRecord noUnicode (mkRecord "MX" "@" "10 mail.example.com" 3600)
         = libdns.MX "@" (secondsToDuration 3600) 10 "mail.example.com").
Proof.
  assert (Hs : ~ hasByte " " "10") by no_space.
  do 4 (split; [first [reflexivity | exact Hs]|]).
  exact (proj1 (decode_MX_cuts_at_first_space noUnicode (mkRecord "MX" "@" "10 mail.example.com" 3600) eq_refl)
           "10" "mail.example.com" 10%Z eq_refl Hs eq_refl).
Defined.

(* ================================================================== *)
(** ** The record codec: encode, and the round trip *)
(* ================================================================== *)

(** C7 as stated fails: a Raw record of type ["txt"] is encoded with the
    type ["txt"], which is not its upper-case form ["TXT"]. *)
Lemma encode_type_not_uppercased :
  Type_ (fst (convertFromLibdnsRecord
                (libdns.Raw (libdns.mkRR "www" time.Hour "txt" "v=spf1 -all"))
                "example.com.")) = "txt"
  /\ strings.ToUpper noUnicode "txt" = "TXT"
  /\ Type_ (fst (convertFromLibdnsRecord
                   (libdns.Raw (libdns.mkRR "www" time.Hour "txt" "v=spf1 -all"))
                   "example.com."))
     <> strings.ToUpper noUnicode "txt".
Proof.
  repeat split. discriminate.
Qed.

(** C7, amended.  [convertFromLibdnsRecord] writes the type of the record's
    RR view as it is, with no case conversion: the type is upper-case for the
    typed variants (Address, TXT, CNAME, MX, NS), whose views carry a fixed
    upper-case type, and it is the caller's own spelling for a Raw record.
    Decode dispatch is case-insensitive: two vendor records that differ in
    the spelling of a type with one upper-case form decode alike, up to the
    type tag that a Raw result copies from its input; the upper-case form of
    an ASCII type is the type with its letters [a]..[z] upper-cased. *)
Theorem codec_type_case (U : string -> string) (record : libdns.Record_)
    (zone : string) (gr : godaddyRecord) (t : string) :
  Type_ (fst (convertFromLibdnsRecord record zone)) = libdns.Type_ (libdns.toRR record)
  /\ ((forall rr, record <> libdns.Raw rr) ->
      strings.ToUpper U (Type_ (fst (convertFromLibdnsRecord record zone)))
      = Type_ (fst (convertFromLibdnsRecord record zone)))
  /\ (strings.ToUpper U t = strings.ToUpper U (Type_ gr) ->
      convertToLibdnsRecord U (mkRecord t (Name gr) (Data gr) (TTL gr))
      = withRawType t (convertToLibdnsRecord U gr))
  /\ (strings.isASCII t = true ->
      strings.ToUpper U t = strings.mapBytes strings.upperByte t)
  /\ convertToLibdnsRecord U (mkRecord "mx" "@" "10 mail.example.com" 3600)
     = convertToLibdnsRecord U (mkRecord "MX" "@" "10 mail.example.com" 3600).
Proof.
  split; [reflexivity|]. split; [|split; [|split]].
  - intros Hraw. destruct record as [n d ip | | | | | rr]; try reflexivity.
    + cbn. now destruct (netip.Is6 ip).
    + now elim (Hraw rr).
  - apply decode_dispatch.
  - apply ToUpper_ascii.
  - reflexivity.
Qed.

Lemma ttl_floor_roundtrip (n : Z) :
  fitsDuration n ->
  secondsToDuration
    (if (Z.quot (secondsToDuration n) time.Second <? 600)%Z then 600%Z
     else Z.quot (secondsToDuration n) time.Second)
  = (Z.max 600 n * time.Second)%Z.
Proof.
  intros H. rewrite (secondsToDuration_exact n H).
  assert (Q : Z.quot (n * time.Second) time.Second = n)
    by (apply Z.quot_mul; discriminate).
  rewrite Q.
  unfold fitsDuration in H.
  destruct (Z.ltb_spec n 600).
  - rewrite Z.max_l by lia. apply secondsToDuration_exact. unfold fitsDuration. lia.
  - rewrite Z.max_r by lia. now apply secondsToDuration_exact.
Qed.

Lemma getRecordName_fixed (zone name : string) :
  name = "@" \/ (~ endsWith name zone /\ ~ endsWith name ".") ->
  getRecordName zone name = name.
Proof.
  intros [-> | [Hz Hd]]; [reflexivity|].
  unfold getRecordName. destruct (String.eqb_spec name "@") as [->|_]; [reflexivity|].
  now rewrite (TrimSuffix_none _ _ Hz), (TrimSuffix_none _ _ Hd).
Qed.

(** C8 as stated fails on the name: the A record named ["www."] holds a
    valid IP literal and its name does not end with the zone
    ["example.com."], and the round trip returns the name ["www"]. *)
Lemma roundtrip_name_changed :
  netip.ParseAddr "192.168.1.1" = Some (netip.Addr4 192 168 1 1)
  /\ ~ endsWith "www." "example.com."
  /\ decodeEncodeDecode noUnicode "example.com." (mkRecord "A" "www." "192.168.1.1" 3600)
     = libdns.Address "www" time.Hour (netip.Addr4 192 168 1 1)
  /\ libdns.Name (libdns.toRR (decodeEncodeDecode noUnicode "example.com."
                                 (mkRecord "A" "www." "192.168.1.1" 3600)))
     <> "www.".
Proof.
  split; [reflexivity|]. split; [now apply HasSuffix_false|].
  split; [vm_compute; reflexivity|]. vm_compute. discriminate.
Qed.

(** Further ways in which the round trip of an A or AAAA record changes its
    fields: the type follows the address family of the literal and not the
    declared type, it comes back in upper case, the data comes back in the
    canonical text of the address, and a TTL of 10^10 seconds wraps. *)
Example roundtrip_other_changes :
  libdns.toRR (decodeEncodeDecode noUnicode "example.com." (mkRecord "A" "www" "::1" 3600))
  = libdns.mkRR "www" time.Hour "AAAA" "::1"
  /\ libdns.toRR (decodeEncodeDecode noUnicode "example.com."
                    (mkRecord "aaaa" "www" "2001:DB8:0:0:0:0:0:1" 3600))
     = libdns.mkRR "www" time.Hour "AAAA" "2001:db8::1"
  /\ libdns.toRR (decodeEncodeDecode noUnicode "example.com."
                    (mkRecord "A" "www" "192.168.1.1" 10000000000))
     = libdns.mkRR "www" (600 * time.Second)%Z "A" "192.168.1.1".
Proof.
  repeat split; vm_compute; reflexivity.
Qed.

(** C8, amended.  Take a vendor record whose data is the canonical text of
    an IP address (it parses, and the address prints back as the same
    text), whose type is the upper-case type of the family of that address
    (AAAA for an IPv6 address, A otherwise), whose name the resolver leaves
    alone in the zone (it is ["@"], or it ends neither with the zone nor with
    a dot), and whose TTL fits a 64-bit duration.  Then decode, encode and
    decode again give the Address record with the same name and address: its
    RR view has the type, name and data of the vendor record, and the TTL of
    the vendor record raised to the floor of 600 seconds. *)
Theorem roundtrip_address (U : string -> string) (zone : string)
    (gr : godaddyRecord) (ip : netip.Addr) :
  netip.ParseAddr (Data gr) = Some ip ->
  netip.String_ ip = Data gr ->
  Type_ gr = (if netip.Is6 ip then "AAAA" else "A") ->
  Name gr = "@" \/ (~ endsWith (Name gr) zone /\ ~ endsWith (Name gr) ".") ->
  fitsDuration (TTL gr) ->
  decodeEncodeDecode U zone gr
  = libdns.Address (Name gr) (Z.max 600 (TTL gr) * time.Second)%Z ip
  /\ libdns.toRR (decodeEncodeDecode U zone gr)
     = libdns.mkRR (Name gr) (Z.max 600 (TTL gr) * time.Second)%Z (Type_ gr) (Data gr).
Proof.
  intros Hp Hs Ht Hn Hf.
  assert (Hty : forall g, Type_ g = (if netip.Is6 ip then "AAAA" else "A") ->
                strings.ToUpper U (Type_ g) = "A" \/ strings.ToUpper U (Type_ g) = "AAAA").
  { intros g ->. destruct (netip.Is6 ip); [right | left]; reflexivity. }
  assert (E : decodeEncodeDecode U zone gr
              = libdns.Address (Name gr) (Z.max 600 (TTL gr) * time.Second)%Z ip).
  { unfold decodeEncodeDecode.
    rewrite (decode_address U gr ip (Hty gr Ht) Hp).
    unfold convertFromLibdnsRecord. cbn [fst libdns.toRR libdns.Name libdns.TTL
                                           libdns.Type_ libdns.Data].
    rewrite (decode_address U _ ip).
    - cbn [Name TTL]. rewrite (getRecordName_fixed zone (Name gr) Hn).
      now rewrite (ttl_floor_roundtrip (TTL gr) Hf).
    - apply Hty. reflexivity.
    - cbn [Data]. now rewrite Hs. }
  split; [exact E|]. rewrite E. cbn [libdns.toRR]. now rewrite Hs, Ht.
Qed.

Lemma roundtrip_address_witness :
  netip.ParseAddr "192.168.1.1" = Some (netip.Addr4 192 168 1 1)
  /\ netip.String_ (netip.Addr4 192 168 1 1) = "192.168.1.1"
  /\ ~ endsWith "www" "example.com."
  /\ ~ endsWith "www" "."
  /\ fitsDuration 300
  /\ (decodeEncodeDecode noUnicode "example.com." (mkRecord "A" "www" "192.168.1.1" 300)
      = libdns.Address "www" (Z.max 600 300 * time.Second)%Z (netip.Addr4 192 168 1 1)
      /\ libdns.toRR (decodeEncodeDecode noUnicode "example.com."
                        (mkRecord "A" "www" "192.168.1.1" 300))
         = libdns.mkRR "www" (Z.max 600 300 * time.Second)%Z "A" "192.168.1.1").
Proof.
  assert (Hf : fitsDuration 300) by (unfold fitsDuration; lia).
  assert (Hz : ~ endsWith "www" "example.com.") by now apply HasSuffix_false.
  assert (Hd : ~ endsWith "www" ".") by now apply HasSuffix_false.
  do 5 (split; [first [reflexivity | exact Hf | exact Hz | exact Hd]|]).
  exact (roundtrip_address noUnicode "example.com."
           (mkRecord "A" "www" "192.168.1.1" 300) (netip.Addr4 192 168 1 1)
           eq_refl eq_refl eq_refl (or_intror (conj Hz Hd)) Hf).
Defined.

(* ================================================================== *)
(** ** The delete search *)
(* ================================================================== *)

Lemma firstMatch_key (zone : string) (r r' : libdns.Record_)
    (current : list libdns.Record_) :
  matchKey zone r = matchKey zone r' ->
  firstMatch zone (libdns.Type_ (libdns.toRR r))
    (getRecordName zone (libdns.Name (libdns.toRR r))) current
  = firstMatch zone (libdns.Type_ (libdns.toRR r'))
      (getRecordName zone (libdns.Name (libdns.toRR r'))) current.
Proof.
  unfold matchKey. now intros [= -> ->].
Qed.

Lemma keyed_eqb (zone t n : string) (c : libdns.Record_) :
  (libdns.Type_ (libdns.toRR c) =? t)
  && (getRecordName zone (libdns.Name (libdns.toRR c)) =? n) = true
  <-> matchKey zone c = (t, n).
Proof.
  unfold matchKey. rewrite andb_true_iff, !String.eqb_eq.
  split; [now intros [-> ->] | now intros [= -> ->]].
Qed.

(** [firstMatch] finds a record exactly when it is the first current record
    with the key. *)
Lemma firstMatch_some (zone t n : string) (current : list libdns.Record_)
    (c : libdns.Record_) :
  firstMatch zone t n current = Some c
  <-> exists before after,
        current = (before ++ c :: after)%list
        /\ matchKey zone c = (t, n)
        /\ Forall (fun x => matchKey zone x <> (t, n)) before.
Proof.
  induction current as [|x current IH]; cbn [firstMatch].
  - split; [discriminate|]. intros (before & after & E & _). now destruct before.
  - cbv zeta. case_if Ek.
    + apply keyed_eqb in Ek. split.
      * intros [= <-]. exists [], current. now repeat split.
      * intros (before & after & E & Hc & Hb). destruct before as [|y before].
        -- now injection E as ->.
        -- injection E as -> _. inversion Hb; subst. contradiction.
    + assert (Hx : matchKey zone x <> (t, n)).
      { intros Hk. apply keyed_eqb in Hk. congruence. }
      rewrite IH. split.
      * intros (before & after & -> & Hc & Hb).
        exists (x :: before), after. repeat split; [assumption | now constructor].
      * intros (before & after & E & Hc & Hb). destruct before as [|y before].
        -- injection E as <- _. contradiction.
        -- injection E as <- ->. inversion Hb; subst. now exists before, after.
Qed.

Lemma firstMatch_none (zone t n : string) (current : list libdns.Record_) :
  firstMatch zone t n current = None
  <-> Forall (fun x => matchKey zone x <> (t, n)) current.
Proof.
  induction current as [|x current IH]; cbn [firstMatch].
  - split; [constructor | reflexivity].
  - cbv zeta. case_if Ek.
    + apply keyed_eqb in Ek. split; [discriminate|].
      intros H. inversion H; subst. contradiction.
    + rewrite IH. split.
      * intros H. constructor; [|assumption].
        intros Hk. apply keyed_eqb in Hk. congruence.
      * intros H. now inversion H.
Qed.

Lemma findExisting_flat_map (zone : string)
    (records current acc : list libdns.Record_) :
  findExisting zone records current acc
  = (acc ++ flat_map (matched zone current) records)%list.
Proof.
  revert acc. induction records as [|r records IH]; intros acc; cbn [findExisting flat_map].
  - now rewrite app_nil_r.
  - cbv zeta. rewrite IH. unfold matched at 2.
    destruct (firstMatch _ _ _ _); cbn [app]; [now rewrite <- app_assoc | reflexivity].
Qed.

Lemma flat_map_matched_length (zone : string) (records current : list libdns.Record_) :
  (List.length (flat_map (matched zone current) records) <= List.length records)%nat.
Proof.
  induction records as [|r records IH]; cbn [flat_map]; [constructor|].
  rewrite List.length_app. unfold matched at 1.
  destruct (firstMatch _ _ _ _); cbn [List.length]; lia.
Qed.

(* ================================================================== *)
(** ** The batch operations *)
(* ================================================================== *)

Section Batches.

Variable U : string -> string.
Variable Context World : Type.
Variable Do : Client -> Request Context -> World -> (string + Response) * World.
Variable NewRequestWithContext_err : Context -> string -> string -> option string.
Variable json_Marshal : list godaddyRecord -> string.
Variable json_Unmarshal : string -> option (list godaddyRecord).

Variable p : Provider.
Variable ctx : Context.
Variable zone : string.

Local Abbreviation appendLoop' :=
  (appendLoop Do NewRequestWithContext_err json_Marshal p ctx zone (getHTTPClient p)).
Local Abbreviation deleteLoop' :=
  (deleteLoop Do NewRequestWithContext_err p ctx zone (getHTTPClient p)).
Local Abbreviation getRecords' :=
  (getRecords U Do NewRequestWithContext_err json_Unmarshal p ctx zone).
Local Abbreviation AppendRecords' :=
  (AppendRecords Do NewRequestWithContext_err json_Marshal p ctx zone).
Local Abbreviation SetRecords' :=
  (SetRecords Do NewRequestWithContext_err json_Marshal p ctx zone).
Local Abbreviation DeleteRecords' :=
  (DeleteRecords U Do NewRequestWithContext_err json_Unmarshal p ctx zone).
Local Abbreviation appendRequest' := (appendRequest json_Marshal p ctx zone).
Local Abbreviation deleteRequest' := (deleteRequest p ctx zone).

Local Abbreviation appendURL' := (appendURL p zone).
Local Abbreviation deleteURL' := (deleteURL p zone).

(** One round of the loop of [AppendRecords]. *)
Lemma appendLoop_cons (record : libdns.Record_) (rest acc : list libdns.Record_)
    (s : Net Context World) :
  appendLoop' (record :: rest) acc s
  = match NewRequestWithContext_err ctx "PUT" (appendURL' record) with
    | Some cause => (inl (errCreateRequest cause), s)
    | None =>
        let '(outcome, w) := Do (getHTTPClient p) (appendRequest' record) (world s) in
        let s' := mkNet w (sent s ++ [appendRequest' record])%list in
        match outcome with
        | inl cause => (inl (errExecuteRequest cause), s')
        | inr resp =>
            if (StatusCode resp =? 200)%Z
            then appendLoop' rest (acc ++ [record])%list s'
            else (inl (appendError zone record outcome), s')
        end
    end.
Proof.
  cbn [appendLoop]. cbv zeta. unfold bind at 1, newRequest, appendURL.
  destruct (NewRequestWithContext_err _ _ _); [reflexivity|].
  unfold ret at 1, bind, doRequest. fold (appendRequest' record).
  destruct (Do _ _ _) as [[cause | resp] w]; [reflexivity|].
  cbn [appendError]. now destruct (StatusCode resp =? 200)%Z.
Qed.

(** One round of the delete loop of [DeleteRecords]. *)
Lemma deleteLoop_cons (record : libdns.Record_) (rest : list libdns.Record_)
    (s : Net Context World) :
  deleteLoop' (record :: rest) s
  = match NewRequestWithContext_err ctx "DELETE" (deleteURL' record) with
    | Some cause => (inl (errCreateDeleteRequest cause), s)
    | None =>
        let '(outcome, w) := Do (getHTTPClient p) (deleteRequest' record) (world s) in
        let s' := mkNet w (sent s ++ [deleteRequest' record])%list in
        match outcome with
        | inl cause => (inl (errExecuteDeleteRequest cause), s')
        | inr resp =>
            if (StatusCode resp =? 204)%Z
            then deleteLoop' rest s'
            else (inl (deleteError zone record outcome), s')
        end
    end.
Proof.
  cbn [deleteLoop]. cbv zeta. unfold bind at 1, newRequest, deleteURL.
  destruct (NewRequestWithContext_err _ _ _); [reflexivity|].
  unfold ret at 1, bind, doRequest. fold (deleteRequest' record).
  destruct (Do _ _ _) as [[cause | resp] w]; [reflexivity|].
  cbn [deleteError]. now destruct (StatusCode resp =? 204)%Z.
Qed.

(** A prefix of the batch that goes through leaves the loop where a run on
    the rest starts: one call was made per record, in order, and the
    records so far are the prefix. *)
Lemma appendLoop_prefix (pre rest acc acc' : list libdns.Record_)
    (s s1 : Net Context World) :
  appendLoop' pre acc s = (inr acc', s1) ->
  appendLoop' (pre ++ rest) acc s = appendLoop' rest acc' s1
  /\ acc' = (acc ++ pre)%list
  /\ sent s1 = (sent s ++ map appendRequest' pre)%list.
Proof.
  revert acc s. induction pre as [|r pre IH]; intros acc s H.
  - cbn in H. injection H as <- <-.
    now rewrite !app_nil_r.
  - rewrite <- app_comm_cons, !appendLoop_cons in *.
    destruct (NewRequestWithContext_err _ _ _); [discriminate|].
    destruct (Do _ _ _) as [[cause | resp] w]; [discriminate|].
    destruct (StatusCode resp =? 200)%Z; [|discriminate].
    destruct (IH _ _ H) as (E & -> & Hs). cbn [sent] in Hs.
    split; [exact E|]. split.
    + now rewrite <- app_assoc.
    + rewrite Hs. cbn [map]. now rewrite <- app_assoc.
Qed.

Lemma deleteLoop_prefix (pre rest : list libdns.Record_)
    (s s1 : Net Context World) (u : unit) :
  deleteLoop' pre s = (inr u, s1) ->
  deleteLoop' (pre ++ rest) s = deleteLoop' rest s1
  /\ sent s1 = (sent s ++ map deleteRequest' pre)%list.
Proof.
  revert s. induction pre as [|r pre IH]; intros s H.
  - cbn in H. injection H as _ <-. now rewrite app_nil_r.
  - rewrite <- app_comm_cons, !deleteLoop_cons in *.
    destruct (NewRequestWithContext_err _ _ _); [discriminate|].
    destruct (Do _ _ _) as [[cause | resp] w]; [discriminate|].
    destruct (StatusCode resp =? 204)%Z; [|discriminate].
    destruct (IH _ H) as (E & Hs). cbn [sent] in Hs.
    split; [exact E|]. rewrite Hs. cbn [map]. now rewrite <- app_assoc.
Qed.

(** The round of a record whose call fails ends the loop. *)
Lemma appendLoop_fails (record : libdns.Record_) (rest acc : list libdns.Record_)
    (s : Net Context World) (outcome : string + Response) (w : World) :
  NewRequestWithContext_err ctx "PUT" (appendURL' record) = None ->
  Do (getHTTPClient p) (appendRequest' record) (world s) = (outcome, w) ->
  callFailed 200 outcome ->
  appendLoop' (record :: rest) acc s
  = (inl (appendError zone record outcome),
     mkNet w (sent s ++ [appendRequest' record])%list).
Proof.
  intros Hn Hd Hf. rewrite appendLoop_cons, Hn, Hd.
  destruct outcome as [cause | resp]; [reflexivity|].
  cbn in Hf. apply Z.eqb_neq in Hf. now rewrite Hf.
Qed.

Lemma deleteLoop_fails (record : libdns.Record_) (rest : list libdns.Record_)
    (s : Net Context World) (outcome : string + Response) (w : World) :
  NewRequestWithContext_err ctx "DELETE" (deleteURL' record) = None ->
  Do (getHTTPClient p) (deleteRequest' record) (world s) = (outcome, w) ->
  callFailed 204 outcome ->
  deleteLoop' (record :: rest) s
  = (inl (deleteError zone record outcome),
     mkNet w (sent s ++ [deleteRequest' record])%list).
Proof.
  intros Hn Hd Hf. rewrite deleteLoop_cons, Hn, Hd.
  destruct outcome as [cause | resp]; [reflexivity|].
  cbn in Hf. apply Z.eqb_neq in Hf. now rewrite Hf.
Qed.

(** Every request of the loop of [AppendRecords] is a PUT, and there is at
    most one per record. *)
Lemma appendLoop_sends_puts (records acc : list libdns.Record_)
    (s : Net Context World) :
  exists new : list (Request Context),
    sent (snd (appendLoop' records acc s)) = (sent s ++ new)%list
    /\ Forall (fun r => Method r = "PUT") new
    /\ (List.length new <= List.length records)%nat.
Proof.
  revert acc s. induction records as [|r records IH]; intros acc s.
  - exists []. cbn. now rewrite app_nil_r.
  - rewrite appendLoop_cons.
    destruct (NewRequestWithContext_err _ _ _).
    { exists []. cbn. rewrite app_nil_r. repeat split; [constructor | lia]. }
    destruct (Do _ _ _) as [outcome w]. cbv zeta.
    assert (Hone : exists new : list (Request Context),
              (sent s ++ [appendRequest' r])%list = (sent s ++ new)%list
              /\ Forall (fun r => Method r = "PUT") new
              /\ (List.length new <= List.length (r :: records))%nat).
    { exists [appendRequest' r]. repeat split.
      - now constructor.
      - cbn. lia. }
    destruct outcome as [cause | resp]; [exact Hone|].
    destruct (StatusCode resp =? 200)%Z; [|exact Hone].
    destruct (IH (acc ++ [r])%list
                (mkNet w (sent s ++ [appendRequest' r])%list))
      as (new & E & Hp & Hl).
    exists (appendRequest' r :: new). cbn [sent] in E. rewrite E.
    repeat split.
    + now rewrite <- app_assoc.
    + now constructor.
    + cbn. lia.
Qed.

(** C2.  [DeleteRecords] matches a requested record against the records
    read from the zone by the pair of its type and its relative name in
    the zone, and by nothing else: requests with the same pairs select the
    same records whatever their data and TTL.  A request selects the first
    remote record with its pair, or none when no remote record has it, so
    at most one record per request; a request without a match adds nothing
    to the deleted set and raises no error: when the read and the delete
    calls succeed the result is the selected records with a nil error, and
    when nothing matches no delete call is made at all. *)
Theorem delete_selects_by_type_and_name (records current : list libdns.Record_) :
  (forall records',
      Forall2 (fun r r' => matchKey zone r = matchKey zone r') records records' ->
      findExisting zone records' current [] = findExisting zone records current [])
  /\ findExisting zone records current [] = flat_map (matched zone current) records
  /\ (forall r,
        (matched zone current r = []
         /\ Forall (fun x => matchKey zone x <> matchKey zone r) current)
        \/ (exists c before after,
              matched zone current r = [c]
              /\ current = (before ++ c :: after)%list
              /\ matchKey zone c = matchKey zone r
              /\ Forall (fun x => matchKey zone x <> matchKey zone r) before))
  /\ (List.length (findExisting zone records current []) <= List.length records)%nat
  /\ (forall s s1 s2 u,
        getRecords' s = (inr current, s1) ->
        deleteLoop' (findExisting zone records current []) s1 = (inr u, s2) ->
        DeleteRecords' records s
        = ((flat_map (matched zone current) records, None), s2))
  /\ (forall s s1,
        getRecords' s = (inr current, s1) ->
        Forall (fun r => Forall (fun x => matchKey zone x <> matchKey zone r) current)
               records ->
        DeleteRecords' records s = (([], None), s1)).
Proof.
  assert (Hsel : forall r,
    (matched zone current r = []
     /\ Forall (fun x => matchKey zone x <> matchKey zone r) current)
    \/ (exists c before after,
          matched zone current r = [c]
          /\ current = (before ++ c :: after)%list
          /\ matchKey zone c = matchKey zone r
          /\ Forall (fun x => matchKey zone x <> matchKey zone r) before)).
  { intros r. unfold matched.
    destruct (firstMatch _ _ _ _) as [c|] eqn:E.
    - right. apply firstMatch_some in E as (before & after & Hc & Hk & Hb).
      now exists c, before, after.
    - left. apply firstMatch_none in E. now split. }
  split; [|split; [|split; [|split; [|split]]]].
  - intros records' H. rewrite !findExisting_flat_map. f_equal.
    induction H as [|r r' l l' Hk _ IH]; [reflexivity|].
    cbn [flat_map]. rewrite IH. f_equal. unfold matched.
    now rewrite (firstMatch_key zone r r' current Hk).
  - apply findExisting_flat_map.
  - exact Hsel.
  - rewrite findExisting_flat_map. apply flat_map_matched_length.
  - intros s s1 s2 u Hg Hd. unfold DeleteRecords. rewrite Hg. cbv zeta.
    rewrite Hd. cbn [results]. now rewrite findExisting_flat_map.
  - intros s s1 Hg Hn. unfold DeleteRecords. rewrite Hg. cbv zeta.
    assert (E : findExisting zone records current [] = []).
    { rewrite findExisting_flat_map. cbn [app].
      induction Hn as [|r l Hr _ IH]; [reflexivity|].
      cbn [flat_map]. rewrite IH. unfold matched.
      apply firstMatch_none in Hr. now rewrite Hr. }
    rewrite E. reflexivity.
Qed.

(** C9, amended.  When the call for the Nth record of a batch fails (a
    transport error or a status that is not the success status), the
    operation makes no further remote call and returns the error: the
    requests sent are those of the first N-1 records followed by the
    failing one, and the vendor's state is the one that these calls left,
    with no call to undo them.  The list returned with the error is nil:
    the records processed before the failure are not reported.  This holds
    for [AppendRecords] and [SetRecords] over the records of the batch and
    for [DeleteRecords] over the records it selected. *)
Theorem batch_stops_at_first_failure :
  (forall (pre post : list libdns.Record_) (record : libdns.Record_)
          (s s1 : Net Context World) (outcome : string + Response) (w : World),
      AppendRecords' pre s = ((pre, None), s1) ->
      NewRequestWithContext_err ctx "PUT" (appendURL' record) = None ->
      Do (getHTTPClient p) (appendRequest' record) (world s1) = (outcome, w) ->
      callFailed 200 outcome ->
      AppendRecords' (pre ++ record :: post) s
      = (([], Some (appendError zone record outcome)),
         mkNet w (sent s1 ++ [appendRequest' record])%list)
      /\ SetRecords' (pre ++ record :: post) s
         = (([], Some (appendError zone record outcome)),
            mkNet w (sent s1 ++ [appendRequest' record])%list)
      /\ sent s1 = (sent s ++ map appendRequest' pre)%list)
  /\ (forall (records current pre post : list libdns.Record_)
             (record : libdns.Record_) (s s0 s1 : Net Context World)
             (outcome : string + Response) (w : World),
        getRecords' s = (inr current, s0) ->
        findExisting zone records current [] = (pre ++ record :: post)%list ->
        deleteLoop' pre s0 = (inr tt, s1) ->
        NewRequestWithContext_err ctx "DELETE" (deleteURL' record) = None ->
        Do (getHTTPClient p) (deleteRequest' record) (world s1) = (outcome, w) ->
        callFailed 204 outcome ->
        DeleteRecords' records s
        = (([], Some (deleteError zone record outcome)),
           mkNet w (sent s1 ++ [deleteRequest' record])%list)
        /\ sent s1 = (sent s0 ++ map deleteRequest' pre)%list).
Proof.
  split.
  - intros pre post record s s1 outcome w Hpre Hn Hd Hf.
    assert (Hloop : appendLoop' pre [] s = (inr pre, s1)).
    { unfold AppendRecords in Hpre.
      destruct (appendLoop' pre [] s) as [[e | l] s'];
        cbn [results] in Hpre; [discriminate|].
      now injection Hpre as -> ->. }
    destruct (appendLoop_prefix pre (record :: post) [] pre s s1 Hloop)
      as (E & _ & Hs).
    assert (R : AppendRecords' (pre ++ record :: post) s
                = (([], Some (appendError zone record outcome)),
                   mkNet w (sent s1 ++ [appendRequest' record])%list)).
    { unfold AppendRecords. rewrite E.
      now rewrite (appendLoop_fails record post pre s1 outcome w Hn Hd Hf). }
    repeat split; [exact R | exact R | exact Hs].
  - intros records current pre post record s s0 s1 outcome w Hg Hsel Hpre Hn Hd Hf.
    destruct (deleteLoop_prefix pre (record :: post) s0 s1 tt Hpre) as (E & Hs).
    split; [|exact Hs].
    unfold DeleteRecords. rewrite Hg. cbv zeta. rewrite Hsel, E.
    now rewrite (deleteLoop_fails record post s1 outcome w Hn Hd Hf).
Qed.

(** C10.  [SetRecords] is [AppendRecords]: on the same provider, context,
    zone, records and vendor state it returns the same records and error,
    leaves the same vendor state and sends the same requests.  It makes no
    call to read the zone back or to delete from it: every request it
    sends is a PUT, at most one per record. *)
Theorem SetRecords_is_AppendRecords (records : list libdns.Record_)
    (s : Net Context World) :
  SetRecords' records s = AppendRecords' records s
  /\ exists new : list (Request Context),
       sent (snd (SetRecords' records s)) = (sent s ++ new)%list
       /\ Forall (fun r => Method r = "PUT") new
       /\ (List.length new <= List.length records)%nat.
Proof.
  split; [reflexivity|].
  unfold SetRecords, AppendRecords.
  destruct (appendLoop_sends_puts records [] s) as (new & E & Hp & Hl).
  exists new. split; [|now split].
  destruct (appendLoop' records [] s) as [[e | l] s']; exact E.
Qed.

End Batches.

(* ================================================================== *)
(** ** The batch operations on the example vendor *)
(* ================================================================== *)

(** C9 as stated fails on the records reported: the first record of the
    batch is written (the journal of the vendor holds its call), the call
    for the second is refused, the third is never sent, and the list
    returned with the error is nil where the specification reports the first
    record. *)
Lemma batch_failure_reports_no_records :
  AppendRecords exampleDo exampleNewRequestErr exampleMarshal exampleProvider tt
    "example.com." [txt "first"] exampleStart
  = (([txt "first"], None),
     mkNet ["PUT https://api.godaddy.com/v1/domains/example.com/records/TXT/first"]
           [appendRequest exampleMarshal exampleProvider tt "example.com." (txt "first")])
  /\ AppendRecords exampleDo exampleNewRequestErr exampleMarshal exampleProvider tt
       "example.com." [txt "first"; txt "rejected"; txt "third"] exampleStart
     = (([], Some (errAppendStatus "rejected" "example.com" 422 "rejected")),
        mkNet ["PUT https://api.godaddy.com/v1/domains/example.com/records/TXT/first"]
              [appendRequest exampleMarshal exampleProvider tt "example.com." (txt "first");
               appendRequest exampleMarshal exampleProvider tt "example.com." (txt "rejected")])
  /\ fst (fst (AppendRecords exampleDo exampleNewRequestErr exampleMarshal
                 exampleProvider tt "example.com."
                 [txt "first"; txt "rejected"; txt "third"] exampleStart))
     <> [txt "first"].
Proof.
  split; [|split].
  - vm_compute. reflexivity.
  - vm_compute. reflexivity.
  - vm_compute. discriminate.
Qed.

(** A delete request carries no data and no TTL: it selects the remote
    record with its type and name, the first one when two remote records
    share them; a request for a record that the zone does not hold selects
    nothing, and the batch succeeds. *)
Example delete_on_example_vendor :
  DeleteRecords noUnicode exampleDo exampleNewRequestErr exampleUnmarshal
    exampleProvider tt "example.com."
    [libdns.TXT "_acme-challenge.example.com." 0%Z "";
     libdns.TXT "missing" 0%Z "";
     libdns.Address "www" 0%Z (netip.Addr4 10 0 0 1)]
    exampleStart
  = (([libdns.TXT "_acme-challenge" (600 * time.Second)%Z "token";
       libdns.Address "www" time.Hour (netip.Addr4 192 168 1 1)], None),
     mkNet ["DELETE https://api.godaddy.com/v1/domains/example.com/records/TXT/_acme-challenge";
            "DELETE https://api.godaddy.com/v1/domains/example.com/records/A/www"]
           [setCommonHeaders exampleProvider
              (mkRequest tt "GET"
                 "https://api.godaddy.com/v1/domains/example.com/records" [] None);
            deleteRequest exampleProvider tt "example.com."
              (libdns.TXT "_acme-challenge" (600 * time.Second)%Z "token");
            deleteRequest exampleProvider tt "example.com."
              (libdns.Address "www" time.Hour (netip.Addr4 192 168 1 1))]).
Proof.
  vm_compute. reflexivity.
Qed.

Lemma batch_stops_at_first_failure_witness :
  (AppendRecords exampleDo exampleNewRequestErr exampleMarshal exampleProvider tt
     "example.com." [txt "first"] exampleStart
   = (([txt "first"], None),
      mkNet ["PUT https://api.godaddy.com/v1/domains/example.com/records/TXT/first"]
            [appendRequest exampleMarshal exampleProvider tt "example.com." (txt "first")])
   /\ callFailed 200 (inr (mkResponse 422 "rejected" None))
   /\ AppendRecords exampleDo exampleNewRequestErr exampleMarshal exampleProvider tt
        "example.com." ([txt "first"] ++ txt "rejected" :: [txt "third"]) exampleStart
      = (([], Some (appendError "example.com." (txt "rejected")
                      (inr (mkResponse 422 "rejected" None)))),
         mkNet ["PUT https://api.godaddy.com/v1/domains/example.com/records/TXT/first"]
               ([appendRequest exampleMarshal exampleProvider tt "example.com." (txt "first")]
                ++ [appendRequest exampleMarshal exampleProvider tt "example.com."
                      (txt "rejected")])))
  /\ (findExisting "example.com."
        [libdns.Address "www.example.com." 0%Z (netip.Addr4 10 0 0 1);
         txt "rejected"; txt "_acme-challenge"]
        (map (convertToLibdnsRecord noUnicode) exampleZone) []
      = ([convertToLibdnsRecord noUnicode (mkRecord "A" "www" "192.168.1.1" 3600)]
         ++ convertToLibdnsRecord noUnicode (mkRecord "TXT" "rejected" "locked" 600)
            :: [convertToLibdnsRecord noUnicode
                  (mkRecord "TXT" "_acme-challenge" "token" 600)])%list
      /\ callFailed 204 (inr (mkResponse 422 "rejected" None))
      /\ DeleteRecords noUnicode exampleDo exampleNewRequestErr exampleUnmarshal
           exampleProvider tt "example.com."
           [libdns.Address "www.example.com." 0%Z (netip.Addr4 10 0 0 1);
            txt "rejected"; txt "_acme-challenge"]
           exampleStart
         = (([], Some (errDeleteStatus "rejected" "example.com" 422 "rejected")),
            mkNet ["DELETE https://api.godaddy.com/v1/domains/example.com/records/A/www"]
                  [setCommonHeaders exampleProvider
                     (mkRequest tt "GET"
                        "https://api.godaddy.com/v1/domains/example.com/records" [] None);
                   deleteRequest exampleProvider tt "example.com."
                     (libdns.Address "www" time.Hour (netip.Addr4 192 168 1 1));
                   deleteRequest exampleProvider tt "example.com."
                     (libdns.TXT "rejected" (600 * time.Second)%Z "locked")])).
Proof.
  pose proof (batch_stops_at_first_failure noUnicode unit (list string) exampleDo
                exampleNewRequestErr exampleMarshal exampleUnmarshal
                exampleProvider tt "example.com.") as [Happend Hdelete].
  split.
  - assert (H1 : AppendRecords exampleDo exampleNewRequestErr exampleMarshal
                   exampleProvider tt "example.com." [txt "first"] exampleStart
                 = (([txt "first"], None),
                    mkNet ["PUT https://api.godaddy.com/v1/domains/example.com/records/TXT/first"]
                      [appendRequest exampleMarshal exampleProvider tt "example.com."
                         (txt "first")]))
      by (vm_compute; reflexivity).
    split; [exact H1|]. split; [discriminate|].
    exact (proj1 (Happend [txt "first"] [txt "third"] (txt "rejected") exampleStart _
                    (inr (mkResponse 422 "rejected" None))
                    ["PUT https://api.godaddy.com/v1/domains/example.com/records/TXT/first"]
                    H1 eq_refl eq_refl ltac:(discriminate))).
  - split; [vm_compute; reflexivity|]. split; [discriminate|].
    refine (eq_trans
      (proj1 (Hdelete
        [libdns.Address "www.example.com." 0%Z (netip.Addr4 10 0 0 1);
         txt "rejected"; txt "_acme-challenge"]
        (map (convertToLibdnsRecord noUnicode) exampleZone)
        [convertToLibdnsRecord noUnicode (mkRecord "A" "www" "192.168.1.1" 3600)]
        [convertToLibdnsRecord noUnicode (mkRecord "TXT" "_acme-challenge" "token" 600)]
        (convertToLibdnsRecord noUnicode (mkRecord "TXT" "rejected" "locked" 600))
        exampleStart
        (mkNet []
           [setCommonHeaders exampleProvider
              (mkRequest tt "GET"
                 "https://api.godaddy.com/v1/domains/example.com/records" [] None)])
        (mkNet ["DELETE https://api.godaddy.com/v1/domains/example.com/records/A/www"]
           [setCommonHeaders exampleProvider
              (mkRequest tt "GET"
                 "https://api.godaddy.com/v1/domains/example.com/records" [] None);
            deleteRequest exampleProvider tt "example.com."
              (libdns.Address "www" time.Hour (netip.Addr4 192 168 1 1))])
        (inr (mkResponse 422 "rejected" None))
        ["DELETE https://api.godaddy.com/v1/domains/example.com/records/A/www"]
        _ _ _ _ _ _)) _);
      try (vm_compute; reflexivity).
    discriminate.
Defined.

(* ================================================================== *)
(** ** More on the name resolver *)
(* ================================================================== *)

Lemma string_app_assoc (a b c : string) : (a ++ b) ++ c = a ++ (b ++ c).
Proof.
  induction a as [|x a IH]; cbn; [reflexivity | now rewrite IH].
Qed.

Lemma string_app_nil_r (a : string) : a ++ "" = a.
Proof.
  induction a as [|x a IH]; cbn; [reflexivity | now rewrite IH].
Qed.

Lemma endsWith_dec (s suffix : string) : endsWith s suffix \/ ~ endsWith s suffix.
Proof.
  destruct (strings.HasSuffix s suffix) eqn:E.
  - left. now apply HasSuffix_true.
  - right. now apply HasSuffix_false.
Qed.

(** X1.  [getRecordName] only ever cuts the end of a name: the name is the
    result followed by nothing, by a dot, by the zone, or by a dot and the
    zone; the result is never longer than the name. *)
Theorem getRecordName_cuts_a_suffix (zone name : string) :
  (exists suffix,
      name = getRecordName zone name ++ suffix
      /\ (suffix = "" \/ suffix = "." \/ suffix = zone \/ suffix = "." ++ zone))
  /\ (String.length (getRecordName zone name) <= String.length name)%nat.
Proof.
  assert (H : exists suffix,
             name = getRecordName zone name ++ suffix
             /\ (suffix = "" \/ suffix = "." \/ suffix = zone \/ suffix = "." ++ zone)).
  { unfold getRecordName. destruct (String.eqb_spec name "@") as [-> | _].
    - exists "". split; [reflexivity | now left].
    - destruct (endsWith_dec name zone) as [[p ->] | Hz].
      + rewrite TrimSuffix_app.
        destruct (endsWith_dec p ".") as [[q ->] | Hd].
        * rewrite TrimSuffix_app. exists ("." ++ zone).
          split; [apply string_app_assoc | tauto].
        * rewrite (TrimSuffix_none _ _ Hd). exists zone. split; [reflexivity | tauto].
      + rewrite (TrimSuffix_none _ _ Hz).
        destruct (endsWith_dec name ".") as [[q ->] | Hd].
        * rewrite TrimSuffix_app. exists ".". split; [reflexivity | tauto].
        * rewrite (TrimSuffix_none _ _ Hd). exists "".
          split; [now rewrite string_app_nil_r | tauto]. }
  split; [exact H|].
  destruct H as (suffix & E & _). rewrite E at 2. rewrite string_length_app. lia.
Qed.

(** X2.  The apex written as the name of the zone itself does not resolve to
    ["@"]: the whole name is cut and the relative name is empty.  The same
    holds with a dot before the zone. *)
Theorem getRecordName_of_zone_is_empty (zone : string) :
  zone <> "@" ->
  getRecordName zone zone = "" /\ getRecordName zone ("." ++ zone) = "".
Proof.
  intros Hz. split.
  - unfold getRecordName. apply String.eqb_neq in Hz. rewrite Hz.
    pose proof (TrimSuffix_app "" zone) as E. cbn [append] in E. now rewrite E.
  - unfold getRecordName.
    pose proof (TrimSuffix_app "." zone) as E.
    destruct (String.eqb_spec ("." ++ zone) "@") as [E' | _].
    + cbn in E'. discriminate E'.
    + now rewrite E.
Qed.

Lemma getRecordName_of_zone_is_empty_witness :
  "example.com." <> "@"
  /\ (getRecordName "example.com." "example.com." = ""
      /\ getRecordName "example.com." ("." ++ "example.com.") = "").
Proof.
  split; [discriminate|].
  apply (getRecordName_of_zone_is_empty "example.com."). discriminate.
Defined.

(** X3.  [getDomain] removes exactly one trailing dot of the zone: [d ++ "."]
    becomes [d], also when [d] itself ends with a dot, and a zone without a
    trailing dot is the domain as it is. *)
Theorem getDomain_strips_one_dot (zone : string) :
  (forall d, zone = d ++ "." -> getDomain zone = d)
  /\ (~ endsWith zone "." -> getDomain zone = zone)
  /\ (String.length zone - 1 <= String.length (getDomain zone) <= String.length zone)%nat.
Proof.
  unfold getDomain. split; [|split].
  - intros d ->. apply TrimSuffix_app.
  - apply TrimSuffix_none.
  - destruct (endsWith_dec zone ".") as [[d ->] | Hd].
    + rewrite TrimSuffix_app, string_length_app. cbn. lia.
    + rewrite (TrimSuffix_none _ _ Hd). lia.
Qed.

(* ================================================================== *)
(** ** More on the record codec *)
(* ================================================================== *)

Lemma Index_byte_none_inv (c : ascii) (s : string) :
  strings.Index s (String c "") = None -> ~ hasByte c s.
Proof.
  unfold hasByte. induction s as [|x s IH]; cbn; [tauto|].
  destruct (ascii_dec c x) as [-> | Hne].
  - now destruct s.
  - destruct (strings.Index s (String c "")); [discriminate|].
    intros _ [E | H]; [congruence | now apply IH].
Qed.

Lemma Index_byte_split (c : ascii) (s : string) (m : nat) :
  strings.Index s (String c "") = Some m ->
  s = strings.take m s ++ String c (strings.drop (S m) s)
  /\ ~ hasByte c (strings.take m s).
Proof.
  unfold hasByte. revert m. induction s as [|x s IH]; intros m; cbn [strings.Index prefix].
  - discriminate.
  - destruct (ascii_dec c x) as [-> | Hne].
    + replace (prefix "" s) with true by now destruct s.
      intros [= <-]. cbn. split; [now destruct s | tauto].
    + destruct (strings.Index s (String c "")) as [k|] eqn:E; [|discriminate].
      cbn [option_map]. intros [= <-]. destruct (IH k eq_refl) as [Hs Hn].
      split.
      * change (String x s = String x (strings.take k s
                                       ++ String c (strings.drop (S k) s))).
        now rewrite <- Hs.
      * cbn [strings.take list_ascii_of_string In].
        intros [H | H]; [congruence | now apply Hn].
Qed.

(** A string either has no space, or is a text without a space, one space,
    and a rest. *)
Lemma first_space (s : string) :
  ~ hasByte " " s \/ exists a b, s = a ++ " " ++ b /\ ~ hasByte " " a.
Proof.
  destruct (strings.Index s " ") as [m|] eqn:E.
  - right. apply Index_byte_split in E as [Hs Hn].
    exists (strings.take m s), (strings.drop (S m) s). split; [exact Hs | exact Hn].
  - left. now apply Index_byte_none_inv.
Qed.

Lemma quot_seconds (n : Z) : Z.quot (n * time.Second) time.Second = n.
Proof.
  apply Z.quot_mul. discriminate.
Qed.

Lemma floor_is_max (n : Z) : (if (n <? 600)%Z then 600%Z else n) = Z.max 600 n.
Proof.
  destruct (Z.ltb_spec n 600); lia.
Qed.

Section DecodeMore.

Variable U : string -> string.

Lemma decode_text (gr : godaddyRecord) :
  (strings.ToUpper U (Type_ gr) = "TXT" ->
   convertToLibdnsRecord U gr
   = libdns.TXT (Name gr) (secondsToDuration (TTL gr)) (Data gr))
  /\ (strings.ToUpper U (Type_ gr) = "CNAME" ->
      convertToLibdnsRecord U gr
      = libdns.CNAME (Name gr) (secondsToDuration (TTL gr)) (Data gr))
  /\ (strings.ToUpper U (Type_ gr) = "NS" ->
      convertToLibdnsRecord U gr
      = libdns.NS (Name gr) (secondsToDuration (TTL gr)) (Data gr)).
Proof.
  unfold convertToLibdnsRecord. cbv zeta.
  repeat split; intros ->; reflexivity.
Qed.

(** X4.  [convertToLibdnsRecord] gives the Raw variant exactly for the
    records whose data does not parse into the typed variant of their type:
    an A or AAAA record whose data is no IP literal, an MX record without a
    space or with a text before the first space that is no unsigned 16-bit
    decimal, or a record of any type other than A, AAAA, TXT, CNAME, MX and
    NS (compared in upper case).  Every other record gives a typed variant. *)
Theorem decode_raw_iff_undecodable (gr : godaddyRecord) :
  (exists rr, convertToLibdnsRecord U gr = libdns.Raw rr) <-> undecodable U gr.
Proof.
  split.
  - intros [rr H]. unfold undecodable. cbv zeta.
    destruct (String.eqb_spec (strings.ToUpper U (Type_ gr)) "A") as [EA | NA];
      [|destruct (String.eqb_spec (strings.ToUpper U (Type_ gr)) "AAAA") as [EA | NAAAA]].
    1,2: left; split; [tauto|];
         destruct (netip.ParseAddr (Data gr)) as [ip|] eqn:Ep; [|reflexivity];
         rewrite (decode_address U gr ip) in H by tauto; discriminate H.
    destruct (String.eqb_spec (strings.ToUpper U (Type_ gr)) "TXT") as [E | NTXT].
    { rewrite (proj1 (decode_text gr) E) in H. discriminate H. }
    destruct (String.eqb_spec (strings.ToUpper U (Type_ gr)) "CNAME") as [E | NCNAME].
    { rewrite (proj1 (proj2 (decode_text gr)) E) in H. discriminate H. }
    destruct (String.eqb_spec (strings.ToUpper U (Type_ gr)) "NS") as [E | NNS].
    { rewrite (proj2 (proj2 (decode_text gr)) E) in H. discriminate H. }
    destruct (String.eqb_spec (strings.ToUpper U (Type_ gr)) "MX") as [E | NMX].
    + right; left. split; [exact E|].
      destruct (first_space (Data gr)) as [Hn | (a & b & Hd & Ha)]; [now left|].
      right. exists a, b. repeat split; try assumption.
      rewrite (decode_MX_cut U gr a b E Hd Ha) in H.
      destruct (strconv.ParseUint a 10 16); [discriminate H | reflexivity].
    + right; right. cbn [In]. intuition congruence.
  - intros [[Ht Hp] | [[Ht Hm] | Hu]].
    + exists (libdns.mkRR (Name gr) (secondsToDuration (TTL gr)) (Type_ gr) (Data gr)).
      now apply decode_bad_address.
    + exists (libdns.mkRR (Name gr) (secondsToDuration (TTL gr)) (Type_ gr) (Data gr)).
      destruct Hm as [Hn | (a & b & Hd & Ha & Hp)].
      * now apply decode_MX_no_space.
      * rewrite (decode_MX_cut U gr a b Ht Hd Ha). now rewrite Hp.
    + exists (libdns.mkRR (Name gr) (secondsToDuration (TTL gr)) (Type_ gr) (Data gr)).
      now apply decode_unknown.
Qed.

(** Decoding keeps the name of every vendor record. *)
Lemma decode_keeps_name (gr : godaddyRecord) :
  libdns.Name (libdns.toRR (convertToLibdnsRecord U gr)) = Name gr.
Proof.
  unfold convertToLibdnsRecord. cbv zeta.
  repeat case_if E; try reflexivity;
    repeat (match goal with |- context [match ?x with _ => _ end] => destruct x end);
    reflexivity.
Qed.

Lemma encode_of_view (r : libdns.Record_) (zone : string) :
  fst (convertFromLibdnsRecord r zone)
  = mkRecord (libdns.Type_ (libdns.toRR r))
      (getRecordName zone (libdns.Name (libdns.toRR r)))
      (libdns.Data (libdns.toRR r))
      (Z.max 600 (Z.quot (libdns.TTL (libdns.toRR r)) time.Second)).
Proof.
  unfold convertFromLibdnsRecord. cbn [fst]. now rewrite floor_is_max.
Qed.

(** X5.  A vendor record that decodes to a text record (TXT, CNAME or NS in
    upper case) and whose TTL fits a duration is encoded back with its data
    byte for byte (nothing is quoted or escaped), with its type in upper
    case, with its name made relative to the zone and its TTL raised to 600
    seconds. *)
Theorem decode_encode_text (zone : string) (gr : godaddyRecord) :
  In (strings.ToUpper U (Type_ gr)) ["TXT"; "CNAME"; "NS"] ->
  fitsDuration (TTL gr) ->
  fst (convertFromLibdnsRecord (convertToLibdnsRecord U gr) zone)
  = mkRecord (strings.ToUpper U (Type_ gr)) (getRecordName zone (Name gr))
             (Data gr) (Z.max 600 (TTL gr)).
Proof.
  intros Ht Hf. rewrite encode_of_view.
  destruct (decode_text gr) as (Htxt & Hcname & Hns).
  cbn [In] in Ht. destruct Ht as [E | [E | [E | []]]]; symmetry in E.
  - rewrite (Htxt E), E. cbn [libdns.toRR libdns.Type_ libdns.Name libdns.Data libdns.TTL].
    now rewrite (secondsToDuration_exact _ Hf), quot_seconds.
  - rewrite (Hcname E), E. cbn [libdns.toRR libdns.Type_ libdns.Name libdns.Data libdns.TTL].
    now rewrite (secondsToDuration_exact _ Hf), quot_seconds.
  - rewrite (Hns E), E. cbn [libdns.toRR libdns.Type_ libdns.Name libdns.Data libdns.TTL].
    now rewrite (secondsToDuration_exact _ Hf), quot_seconds.
Qed.

(** X6.  A vendor record that falls back to the Raw variant is encoded back
    with its own type and data, byte for byte and in its own spelling of the
    type: a record the decoder does not understand passes through decode and
    encode unchanged, up to the relative name and the TTL floor. *)
Theorem decode_encode_fallback (zone : string) (gr : godaddyRecord) :
  undecodable U gr ->
  fitsDuration (TTL gr) ->
  fst (convertFromLibdnsRecord (convertToLibdnsRecord U gr) zone)
  = mkRecord (Type_ gr) (getRecordName zone (Name gr)) (Data gr) (Z.max 600 (TTL gr)).
Proof.
  intros Hu Hf. rewrite encode_of_view.
  assert (E : convertToLibdnsRecord U gr = rawFallback gr).
  { destruct Hu as [[Ht Hp] | [[Ht Hm] | Hu]].
    - now apply decode_bad_address.
    - destruct Hm as [Hn | (a & b & Hd & Ha & Hp)].
      + now apply decode_MX_no_space.
      + rewrite (decode_MX_cut U gr a b Ht Hd Ha). now rewrite Hp.
    - now apply decode_unknown. }
  rewrite E. unfold rawFallback.
  cbn [libdns.toRR libdns.Type_ libdns.Name libdns.Data libdns.TTL].
  now rewrite (secondsToDuration_exact _ Hf), quot_seconds.
Qed.

End DecodeMore.

Lemma decode_encode_text_witness :
  In (strings.ToUpper noUnicode "txt") ["TXT"; "CNAME"; "NS"]
  /\ fitsDuration 300
  /\ fst (convertFromLibdnsRecord
            (convertToLibdnsRecord noUnicode
               (mkRecord "txt" "_acme-challenge.example.com." "a  b" 300))
            "example.com.")
     = mkRecord (strings.ToUpper noUnicode "txt")
         (getRecordName "example.com." "_acme-challenge.example.com.")
         "a  b" (Z.max 600 300).
Proof.
  assert (Ht : In (strings.ToUpper noUnicode "txt") ["TXT"; "CNAME"; "NS"])
    by (left; reflexivity).
  assert (Hf : fitsDuration 300) by (unfold fitsDuration; lia).
  split; [exact Ht|]. split; [exact Hf|].
  exact (decode_encode_text noUnicode "example.com."
           (mkRecord "txt" "_acme-challenge.example.com." "a  b" 300) Ht Hf).
Defined.

Lemma decode_encode_fallback_witness :
  undecodable noUnicode (mkRecord "srv" "_sip._tcp" "0 5 5060 sip.example.com" 3600)
  /\ fitsDuration 3600
  /\ fst (convertFromLibdnsRecord
            (convertToLibdnsRecord noUnicode
               (mkRecord "srv" "_sip._tcp" "0 5 5060 sip.example.com" 3600))
            "example.com.")
     = mkRecord "srv" (getRecordName "example.com." "_sip._tcp")
         "0 5 5060 sip.example.com" (Z.max 600 3600).
Proof.
  assert (Hu : undecodable noUnicode
                 (mkRecord "srv" "_sip._tcp" "0 5 5060 sip.example.com" 3600)).
  { right; right. cbv zeta. cbn [Type_].
    change (strings.ToUpper noUnicode "srv") with "SRV".
    cbn [In]. intuition discriminate. }
  assert (Hf : fitsDuration 3600) by (unfold fitsDuration; lia).
  split; [exact Hu|]. split; [exact Hf|].
  exact (decode_encode_fallback noUnicode "example.com."
           (mkRecord "srv" "_sip._tcp" "0 5 5060 sip.example.com" 3600) Hu Hf).
Defined.

(** X7.  For a record whose TTL is an [int64] duration, the TTL that
    [convertFromLibdnsRecord] writes lies between 600 and 9223372036
    seconds, so it fits a duration: decoding a record that was encoded never
    wraps its TTL. *)
Theorem encode_ttl_in_range (record : libdns.Record_) (zone : string) :
  inInt64 (libdns.TTL (libdns.toRR record)) ->
  (600 <= TTL (fst (convertFromLibdnsRecord record zone)) <= 9223372036)%Z
  /\ fitsDuration (TTL (fst (convertFromLibdnsRecord record zone)))
  /\ secondsToDuration (TTL (fst (convertFromLibdnsRecord record zone)))
     = flooredTTL (libdns.TTL (libdns.toRR record)).
Proof.
  intros [Hlo Hhi]. rewrite encode_of_view. cbn [TTL].
  assert (Hq : (Z.quot (libdns.TTL (libdns.toRR record)) time.Second <= 9223372036)%Z).
  { change 9223372036%Z with (Z.quot (2 ^ 63 - 1) time.Second).
    apply Z.quot_le_mono; [unfold time.Second; lia | lia]. }
  assert (Hr : (600 <= Z.max 600 (Z.quot (libdns.TTL (libdns.toRR record)) time.Second)
                <= 9223372036)%Z) by lia.
  split; [exact Hr|].
  assert (Hf : fitsDuration (Z.max 600 (Z.quot (libdns.TTL (libdns.toRR record))
                                          time.Second)))
    by (unfold fitsDuration; lia).
  split; [exact Hf|]. now rewrite (secondsToDuration_exact _ Hf).
Qed.

Lemma encode_ttl_in_range_witness :
  inInt64 (libdns.TTL (libdns.toRR (libdns.TXT "www" (2 ^ 63 - 1)%Z "v")))
  /\ ((600 <= TTL (fst (convertFromLibdnsRecord (libdns.TXT "www" (2 ^ 63 - 1)%Z "v")
                          "example.com.")) <= 9223372036)%Z
      /\ fitsDuration (TTL (fst (convertFromLibdnsRecord
                                   (libdns.TXT "www" (2 ^ 63 - 1)%Z "v") "example.com.")))
      /\ secondsToDuration (TTL (fst (convertFromLibdnsRecord
                                        (libdns.TXT "www" (2 ^ 63 - 1)%Z "v")
                                        "example.com.")))
         = flooredTTL (libdns.TTL (libdns.toRR (libdns.TXT "www" (2 ^ 63 - 1)%Z "v")))).
Proof.
  assert (H : inInt64 (libdns.TTL (libdns.toRR (libdns.TXT "www" (2 ^ 63 - 1)%Z "v"))))
    by (unfold inInt64; cbn; lia).
  split; [exact H|].
  exact (encode_ttl_in_range (libdns.TXT "www" (2 ^ 63 - 1)%Z "v") "example.com." H).
Defined.

(* ================================================================== *)
(** ** Writing a record and reading it back *)
(* ================================================================== *)
















(** The record of the witness reads back with the empty name of the apex and
    the floor of 600 seconds. *)
Example encode_decode_example :
  asWritten "example.com."
    (libdns.MX "example.com." (90 * time.Second)%Z 10 "mail.example.com")
  = libdns.MX "" (600 * time.Second)%Z 10 "mail.example.com"
  /\ asWritten "example.com."
       (libdns.Address "www.example.com." time.Hour (netip.Addr4 192 168 1 1))
     = libdns.Address "www" time.Hour (netip.Addr4 192 168 1 1).
Proof.
  split; vm_compute; reflexivity.
Qed.

(* ================================================================== *)
(** ** More on the delete search *)
(* ================================================================== *)

(** X9.  The records that the search of [DeleteRecords] selects are records
    read from the zone, each with the type and relative name of one of the
    requests; the search handles the requests one by one, in order (the
    selection for a concatenation of request lists is the concatenation of
    the selections), so a request that is repeated selects its record again;
    and the delete call of a selected record goes to the URL of the
    request's own type and relative name. *)
Theorem delete_selection_sound (p : Provider) (zone : string)
    (records current : list libdns.Record_) :
  Forall (fun c => In c current
                   /\ exists r, In r records /\ matchKey zone c = matchKey zone r)
         (findExisting zone records current [])
  /\ (forall l1 l2,
        findExisting zone (l1 ++ l2) current []
        = (findExisting zone l1 current [] ++ findExisting zone l2 current [])%list)
  /\ (forall r c, In c (matched zone current r) ->
        deleteURL p zone c
        = recordURL p zone (libdns.Type_ (libdns.toRR r))
            (getRecordName zone (libdns.Name (libdns.toRR r)))).
Proof.
  assert (Hm : forall r c, In c (matched zone current r) ->
               In c current /\ matchKey zone c = matchKey zone r).
  { intros r c. unfold matched.
    destruct (firstMatch _ _ _ _) as [c'|] eqn:E; cbn [In]; [|tauto].
    intros [<- | []].
    apply firstMatch_some in E as (before & after & -> & Hk & _).
    split; [apply in_elt | exact Hk]. }
  split; [|split].
  - rewrite findExisting_flat_map. cbn [app]. apply Forall_forall.
    intros c Hc. apply in_flat_map in Hc as (r & Hr & Hc).
    destruct (Hm r c Hc) as [Hin Hk]. split; [exact Hin | now exists r].
  - intros l1 l2. rewrite !findExisting_flat_map. cbn [app]. apply flat_map_app.
  - intros r c Hc. destruct (Hm r c Hc) as [_ Hk].
    unfold deleteURL, matchKey in *. now injection Hk as -> ->.
Qed.

(* ================================================================== *)
(** ** The requests of the batch operations *)
(* ================================================================== *)

Section Traces.

Variable U : string -> string.
Variable Context World : Type.
Variable Do : Client -> Request Context -> World -> (string + Response) * World.
Variable NewRequestWithContext_err : Context -> string -> string -> option string.
Variable json_Marshal : list godaddyRecord -> string.
Variable json_Unmarshal : string -> option (list godaddyRecord).

Variable p : Provider.
Variable ctx : Context.
Variable zone : string.

Local Abbreviation appendLoop' :=
  (appendLoop Do NewRequestWithContext_err json_Marshal p ctx zone (getHTTPClient p)).
Local Abbreviation deleteLoop' :=
  (deleteLoop Do NewRequestWithContext_err p ctx zone (getHTTPClient p)).
Local Abbreviation getRecords' :=
  (getRecords U Do NewRequestWithContext_err json_Unmarshal p ctx zone).
Local Abbreviation GetRecords' :=
  (GetRecords U Do NewRequestWithContext_err json_Unmarshal p ctx zone).
Local Abbreviation AppendRecords' :=
  (AppendRecords Do NewRequestWithContext_err json_Marshal p ctx zone).
Local Abbreviation SetRecords' :=
  (SetRecords Do NewRequestWithContext_err json_Marshal p ctx zone).
Local Abbreviation DeleteRecords' :=
  (DeleteRecords U Do NewRequestWithContext_err json_Unmarshal p ctx zone).
Local Abbreviation appendRequest' := (appendRequest json_Marshal p ctx zone).
Local Abbreviation deleteRequest' := (deleteRequest p ctx zone).
Local Abbreviation getRequest' := (getRequest p ctx zone).

(** The steps of [GetRecords], one case per return. *)
Lemma getRecords_cases (s : Net Context World) :
  getRecords' s
  = match NewRequestWithContext_err ctx "GET" (URL getRequest') with
    | Some cause => (inl (errCreateRequest cause), s)
    | None =>
        let '(outcome, w) := Do (getHTTPClient p) getRequest' (world s) in
        let s' := mkNet w (sent s ++ [getRequest'])%list in
        match outcome with
        | inl cause => (inl (errExecuteRequest cause), s')
        | inr resp =>
            match ReadErr resp with
            | Some cause => (inl (errReadBody cause), s')
            | None =>
                if (StatusCode resp =? 200)%Z
                then match json_Unmarshal (Body resp) with
                     | None => (inl errParseJSON, s')
                     | Some resultObj =>
                         (inr (map (convertToLibdnsRecord U) resultObj), s')
                     end
                else (inl (errAPIStatus (StatusCode resp) (Body resp)), s')
            end
        end
    end.
Proof.
  unfold getRecords. cbv zeta. unfold bind at 1, newRequest.
  change (URL getRequest')
    with (getApiHost p ++ "/v1/domains/" ++ getDomain zone ++ "/records").
  destruct (NewRequestWithContext_err _ _ _); [reflexivity|].
  unfold ret at 1, bind, doRequest. fold getRequest'.
  destruct (Do _ _ _) as [[cause | resp] w]; [reflexivity|].
  destruct (ReadErr resp); [reflexivity|].
  destruct (StatusCode resp =? 200)%Z; cbn [negb]; [|reflexivity].
  now destruct (json_Unmarshal (Body resp)).
Qed.

(** A read that succeeds has sent the one GET request. *)
Lemma getRecords_ok_sent (s s0 : Net Context World) (current : list libdns.Record_) :
  getRecords' s = (inr current, s0) ->
  sent s0 = (sent s ++ [getRequest'])%list
  /\ exists resultObj, current = map (convertToLibdnsRecord U) resultObj.
Proof.
  rewrite getRecords_cases.
  destruct (NewRequestWithContext_err _ _ _); [discriminate|].
  destruct (Do _ _ _) as [[cause | resp] w]; [discriminate|]. cbv zeta.
  destruct (ReadErr resp); [discriminate|].
  destruct (StatusCode resp =? 200)%Z; [|discriminate].
  destruct (json_Unmarshal (Body resp)) as [rs|]; [|discriminate].
  intros [= <- <-]. split; [reflexivity | now exists rs].
Qed.

(** X10.  [GetRecords] makes at most one remote call, the GET of the zone's
    records: none when the request cannot be built, in which case the
    vendor's state is untouched.  It succeeds only on status 200 with a body
    that decodes, and then returns exactly one record per vendor record, in
    the vendor's order and each under the vendor record's name; on every
    failure the list returned is nil. *)
Theorem GetRecords_reads_once (s : Net Context World) :
  (snd (GetRecords' s) = s
   \/ snd (GetRecords' s)
      = mkNet (snd (Do (getHTTPClient p) getRequest' (world s)))
              (sent s ++ [getRequest'])%list)
  /\ (NewRequestWithContext_err ctx "GET" (URL getRequest') <> None ->
      snd (GetRecords' s) = s /\ fst (fst (GetRecords' s)) = [])
  /\ (snd (fst (GetRecords' s)) <> None -> fst (fst (GetRecords' s)) = [])
  /\ (snd (fst (GetRecords' s)) = None ->
      exists resp resultObj,
        fst (Do (getHTTPClient p) getRequest' (world s)) = inr resp
        /\ StatusCode resp = 200%Z
        /\ json_Unmarshal (Body resp) = Some resultObj
        /\ fst (fst (GetRecords' s)) = map (convertToLibdnsRecord U) resultObj
        /\ List.length (fst (fst (GetRecords' s))) = List.length resultObj
        /\ map (fun r => libdns.Name (libdns.toRR r)) (fst (fst (GetRecords' s)))
           = map Name resultObj).
Proof.
  unfold GetRecords. rewrite getRecords_cases.
  destruct (NewRequestWithContext_err _ _ _) as [cause|] eqn:En.
  { cbn. repeat split; try tauto; discriminate. }
  destruct (Do _ _ _) as [outcome w] eqn:Ed. cbv zeta. cbn [fst snd].
  assert (Hfail : forall e,
    let out := results (A := libdns.Record_)
                 (inl e, mkNet w (sent s ++ [getRequest'])%list) in
    (snd out = s \/ snd out = mkNet w (sent s ++ [getRequest'])%list)
    /\ (@None string <> None -> snd out = s /\ fst (fst out) = [])
    /\ (snd (fst out) <> None -> fst (fst out) = [])
    /\ (snd (fst out) = None ->
        exists resp resultObj,
          outcome = inr resp
          /\ StatusCode resp = 200%Z
          /\ json_Unmarshal (Body resp) = Some resultObj
          /\ fst (fst out) = map (convertToLibdnsRecord U) resultObj
          /\ List.length (fst (fst out)) = List.length resultObj
          /\ map (fun r => libdns.Name (libdns.toRR r)) (fst (fst out))
             = map Name resultObj)).
  { intros e. cbn. split; [now right|]. split; [intros H; now elim H|].
    split; [reflexivity | discriminate]. }
  destruct outcome as [cause | resp]; [apply Hfail|].
  destruct (ReadErr resp); [apply Hfail|].
  destruct (Z.eqb_spec (StatusCode resp) 200) as [Es | Ns]; [|apply Hfail].
  destruct (json_Unmarshal (Body resp)) as [rs|] eqn:Ej; [|apply Hfail].
  cbn [results fst snd]. split; [now right|]. split; [tauto|]. split; [tauto|].
  intros _. exists resp, rs. repeat split; try assumption.
  - apply length_map.
  - rewrite map_map. apply map_ext. intros gr. apply decode_keeps_name.
Qed.

(** The requests of the loop of [AppendRecords] are those of a prefix of
    the batch; the loop ends without an error only after the whole batch. *)
Lemma appendLoop_trace (records acc : list libdns.Record_) (s : Net Context World) :
  exists k,
    (k <= List.length records)%nat
    /\ sent (snd (appendLoop' records acc s))
       = (sent s ++ map appendRequest' (firstn k records))%list
    /\ match fst (appendLoop' records acc s) with
       | inr l => k = List.length records /\ l = (acc ++ records)%list
       | inl _ => True
       end.
Proof.
  revert acc s. induction records as [|r records IH]; intros acc s.
  - exists 0%nat. cbn. now rewrite !app_nil_r.
  - rewrite appendLoop_cons.
    destruct (NewRequestWithContext_err _ _ _).
    { exists 0%nat. cbn. rewrite app_nil_r. repeat split. lia. }
    destruct (Do _ _ _) as [outcome w]. cbv zeta.
    assert (Hone : forall e : error,
      exists k, (k <= List.length (r :: records))%nat
        /\ sent (snd (@inl error (list libdns.Record_) e,
                      mkNet w (sent s ++ [appendRequest' r])%list))
           = (sent s ++ map appendRequest' (firstn k (r :: records)))%list
        /\ True).
    { intros e. exists 1%nat. cbn. repeat split. lia. }
    destruct outcome as [cause | resp]; [apply Hone|].
    destruct (StatusCode resp =? 200)%Z; [|apply Hone].
    destruct (IH (acc ++ [r])%list (mkNet w (sent s ++ [appendRequest' r])%list))
      as (k & Hk & Hs & Hr).
    exists (S k). split; [cbn; lia|]. split.
    + rewrite Hs. cbn [sent firstn map]. now rewrite <- app_assoc.
    + destruct (fst (appendLoop' records (acc ++ [r])%list _)); [exact I|].
      destruct Hr as [-> ->]. split; [reflexivity | now rewrite <- app_assoc].
Qed.

Lemma deleteLoop_trace (records : list libdns.Record_) (s : Net Context World) :
  exists k,
    (k <= List.length records)%nat
    /\ sent (snd (deleteLoop' records s))
       = (sent s ++ map deleteRequest' (firstn k records))%list
    /\ match fst (deleteLoop' records s) with
       | inr _ => k = List.length records
       | inl _ => True
       end.
Proof.
  revert s. induction records as [|r records IH]; intros s.
  - exists 0%nat. cbn. now rewrite !app_nil_r.
  - rewrite deleteLoop_cons.
    destruct (NewRequestWithContext_err _ _ _).
    { exists 0%nat. cbn. rewrite app_nil_r. repeat split. lia. }
    destruct (Do _ _ _) as [outcome w]. cbv zeta.
    assert (Hone : forall e : error,
      exists k, (k <= List.length (r :: records))%nat
        /\ sent (snd (@inl error unit e,
                      mkNet w (sent s ++ [deleteRequest' r])%list))
           = (sent s ++ map deleteRequest' (firstn k (r :: records)))%list
        /\ True).
    { intros e. exists 1%nat. cbn. repeat split. lia. }
    destruct outcome as [cause | resp]; [apply Hone|].
    destruct (StatusCode resp =? 204)%Z; [|apply Hone].
    destruct (IH (mkNet w (sent s ++ [deleteRequest' r])%list)) as (k & Hk & Hs & Hr).
    exists (S k). split; [cbn; lia|]. split.
    + rewrite Hs. cbn [sent firstn map]. now rewrite <- app_assoc.
    + destruct (fst (deleteLoop' records _)); [exact I | now rewrite Hr].
Qed.


(** X11.  Whatever the vendor answers, the requests that [AppendRecords]
    (and [SetRecords]) sends are the write requests of the first [k] records
    of the batch, one per record and in the order of the batch.  When the
    error is nil, [k] is the length of the batch and the list returned is
    the batch itself, the caller's records as they were passed in (not what
    was written); when there is an error the list returned is nil. *)
Theorem AppendRecords_sends_a_prefix (records : list libdns.Record_)
    (s : Net Context World) :
  exists k,
    (k <= List.length records)%nat
    /\ sent (snd (AppendRecords' records s))
       = (sent s ++ map appendRequest' (firstn k records))%list
    /\ (snd (fst (AppendRecords' records s)) = None ->
        k = List.length records /\ fst (fst (AppendRecords' records s)) = records)
    /\ (snd (fst (AppendRecords' records s)) <> None ->
        fst (fst (AppendRecords' records s)) = [])
    /\ SetRecords' records s = AppendRecords' records s.
Proof.
  destruct (appendLoop_trace records [] s) as (k & Hk & Hs & Hr).
  exists k. unfold SetRecords, AppendRecords.
  destruct (appendLoop' records [] s) as [[e | l] s']; cbn [results fst snd] in *.
  - repeat split; try assumption; try discriminate.
  - destruct Hr as [-> ->]. repeat split; try assumption; tauto.
Qed.

(** X12.  [DeleteRecords] reads the zone first.  When the read fails it
    makes no delete call: it returns the read error wrapped, with a nil
    list, and leaves the state as the read left it.  When the read succeeds,
    the requests that follow the GET are the delete requests of the first
    [k] selected records, in order; with a nil error [k] is their number and
    the list returned is the selected records; with an error the list
    returned is nil. *)
Theorem DeleteRecords_reads_then_deletes (records : list libdns.Record_)
    (s : Net Context World) :
  (exists e, fst (getRecords' s) = inl e
             /\ DeleteRecords' records s
                = (([], Some (errGetCurrent e)), snd (getRecords' s)))
  \/ (exists current s0 k,
        getRecords' s = (inr current, s0)
        /\ (k <= List.length (findExisting zone records current []))%nat
        /\ sent (snd (DeleteRecords' records s))
           = (sent s ++ getRequest'
                :: map deleteRequest' (firstn k (findExisting zone records current [])))%list
        /\ (snd (fst (DeleteRecords' records s)) = None ->
            k = List.length (findExisting zone records current [])
            /\ fst (fst (DeleteRecords' records s))
               = findExisting zone records current [])
        /\ (snd (fst (DeleteRecords' records s)) <> None ->
            fst (fst (DeleteRecords' records s)) = [])).
Proof.
  unfold DeleteRecords.
  destruct (getRecords' s) as [[e | current] s0] eqn:Eg.
  - left. exists e. split; reflexivity.
  - right. exists current, s0. cbv zeta.
    destruct (getRecords_ok_sent s s0 current Eg) as [Hs0 _].
    destruct (deleteLoop_trace (findExisting zone records current []) s0)
      as (k & Hk & Hs & Hr).
    exists k. split; [reflexivity|]. split; [exact Hk|].
    destruct (deleteLoop' (findExisting zone records current []) s0)
      as [[e | u] s2]; cbn [results fst snd] in *.
    + rewrite Hs, Hs0, <- app_assoc. repeat split; try discriminate.
    + rewrite Hs, Hs0, <- app_assoc. repeat split; try assumption; tauto.
Qed.



End Traces.
